(** * WebXR directory: query translation, record normalisation, submission
      validation (backend/routes/tools.js, backend/server.js) and the search
      debounce of the home page (frontend/src/pages/HomePage.tsx).

    JavaScript strings are modelled as [string], one character per code unit,
    for code units below 256.  Objects used as dictionaries ([record.fields],
    [req.body], [errors], [newToolData]) are [gmap string _]. *)

From Stdlib Require Import String Ascii List ZArith QArith Lia Bool.
From stdpp Require Import gmap strings list fin_maps.

Import ListNotations.
Local Open Scope string_scope.
Local Open Scope list_scope.
#[local] Set Warnings "-clear-no-such-hyp".

(* ===================================================================== *)
(** ** String primitives of the platform *)
(* ===================================================================== *)

Definition LF : string := String (ascii_of_nat 10) "".
Definition quote : ascii := "'"%char.
Definition backslash : ascii := "\"%char.
Definition comma : ascii := ","%char.
Definition dash : ascii := "-"%char.

Fixpoint spaces (n : nat) : string :=
  match n with
  | O => ""
  | S k => String " "%char (spaces k)
  end.

(** [WhiteSpace] and [LineTerminator] code units below 256: TAB, LF, VT, FF,
    CR, SP and NBSP. *)
Definition is_ws (c : ascii) : bool :=
  let n := nat_of_ascii c in
  ((9 <=? n)%nat && (n <=? 13)%nat) || (n =? 32)%nat || (n =? 160)%nat.

Fixpoint trimStart (s : string) : string :=
  match s with
  | "" => ""
  | String c r => if is_ws c then trimStart r else s
  end.

Fixpoint trimEnd (s : string) : string :=
  match s with
  | "" => ""
  | String c r =>
      match trimEnd r with
      | "" => if is_ws c then "" else String c ""
      | r' => String c r'
      end
  end.

(** [String.prototype.trim]. *)
Definition trim (s : string) : string := trimEnd (trimStart s).

(** Lower-casing of one code unit below 256: A-Z, and the Latin-1 capitals
    U+00C0-U+00DE without the multiplication sign U+00D7. *)
Definition lower_char (c : ascii) : ascii :=
  let n := nat_of_ascii c in
  if ((65 <=? n)%nat && (n <=? 90)%nat)
     || ((192 <=? n)%nat && (n <=? 222)%nat && negb (n =? 215)%nat)
  then ascii_of_nat (n + 32) else c.

(** [String.prototype.toLowerCase]. *)
Fixpoint toLowerCase (s : string) : string :=
  match s with
  | "" => ""
  | String c r => String (lower_char c) (toLowerCase r)
  end.

(** [s.replace(/'/g, "\\'")]: every single quote becomes backslash, quote. *)
Fixpoint escapeQuotes (s : string) : string :=
  match s with
  | "" => ""
  | String c r =>
      if Ascii.eqb c quote
      then String backslash (String quote (escapeQuotes r))
      else String c (escapeQuotes r)
  end.

(** [s.split(sep)] for a one-character separator: the segments between the
    separators, never an empty list. *)
Fixpoint split (sep : ascii) (s : string) : list string :=
  match s with
  | "" => [""]
  | String c r =>
      if Ascii.eqb c sep then "" :: split sep r
      else match split sep r with
           | [] => [String c ""]
           | seg :: segs => String c seg :: segs
           end
  end.

(** [Array.prototype.join]. *)
Fixpoint join (sep : string) (l : list string) : string :=
  match l with
  | [] => ""
  | [x] => x
  | x :: rest => x +:+ sep +:+ join sep rest
  end.

Definition nonempty (s : string) : bool :=
  match s with "" => false | _ => true end.

(** [haystack] contains [needle] as a contiguous run. *)
Definition contains (needle haystack : string) : Prop :=
  exists pre post, haystack = pre +:+ needle +:+ post.

(* ===================================================================== *)
(** ** JavaScript values *)
(* ===================================================================== *)

#[warnings="-register-all"]
Inductive jsval : Type :=
  | JUndefined
  | JNull
  | JBool (b : bool)
  | JNum (q : Q)
  | JStr (s : string)
  | JArr (items : list jsval)
  | JObj (props : list (string * jsval)).

(** [ToBoolean]: undefined, null, false, 0 and the empty string are falsy. *)
Definition truthy (v : jsval) : bool :=
  match v with
  | JUndefined | JNull => false
  | JBool b => b
  | JNum q => negb (Qnum q =? 0)%Z
  | JStr s => nonempty s
  | JArr _ | JObj _ => true
  end.

(** [a || b]. *)
Definition js_or (a b : jsval) : jsval := if truthy a then a else b.

(** Property read [o[k]] on a dictionary object. *)
Definition get (o : gmap string jsval) (k : string) : jsval :=
  default JUndefined (o !! k).

(* ===================================================================== *)
(** ** routes/tools.js: formatRecord *)
(* ===================================================================== *)

(** A record as the store hands it out. *)
Record record := { rec_id : string; rec_fields : gmap string jsval }.

(** The normalised listing record. *)
Module Tool.
Record t := {
  id : jsval;
  name : jsval;
  description : jsval;
  shortDescription : jsval;
  url : jsval;
  category : jsval;
  rating : jsval;
  imageUrl : jsval;
  author : jsval
}.
End Tool.

Definition formatRecord (r : record) : Tool.t :=
  let fields := rec_fields r in
  {| Tool.id := JStr (rec_id r);
     Tool.name := js_or (get fields "title") (JStr "Untitled Tool");
     Tool.description := js_or (get fields "description") (JStr "");
     Tool.shortDescription := js_or (get fields "description") (JStr "");
     Tool.url := js_or (get fields "link") JNull;
     Tool.category := js_or (get fields "tags") JNull;
     Tool.rating := js_or (get fields "rating") JNull;
     Tool.imageUrl := js_or (get fields "thumbnail") JNull;
     Tool.author := js_or (get fields "author") JNull |}.

(* ===================================================================== *)
(** ** Errors, replies and the store interface *)
(* ===================================================================== *)

(** The error class of the store client: [error], [message], [statusCode]. *)
Record AirtableError := {
  ae_error : string;
  ae_message : string;
  ae_statusCode : option Z
}.

(** Error objects that travel through [next(...)] or escape a handler. *)
Inductive js_error : Type :=
  | Error (message : string) (status : option Z)
          (details : option (gmap string string))
  | TypeError (message : string)
  | StoreError (e : AirtableError).

(** Fallible steps of a handler. *)
Inductive result (A : Type) : Type :=
  | Ok (a : A)
  | Throw (e : js_error).
Arguments Ok {A} a.
Arguments Throw {A} e.

Definition bind {A B : Type} (c : result A) (k : A -> result B) : result B :=
  match c with
  | Ok a => k a
  | Throw e => Throw e
  end.

Notation "x <~ c ;; k" := (bind c (fun x => k))
  (at level 100, c at next level, right associativity).

Inductive body : Type :=
  | BTool (t : Tool.t)
  | BTools (ts : list Tool.t)
  | BMessage (message : string)
  | BErrorPage.

(** How a handler ends: a JSON reply, a call of [next(err)], or an exception
    that escapes the async handler (the promise rejects, nothing is sent). *)
Inductive outcome : Type :=
  | Json (status : Z) (b : body)
  | Next (e : js_error)
  | Rejected (e : js_error).

Record select_params := {
  pageSize : Z;
  filterByFormula : string;
  sort : list (jsval * string);
  fields : list string
}.

Inductive store_call : Type :=
  | Select (p : select_params)
  | Find (rid : string)
  | Create (rows : list (gmap string jsval)).

(** The store client bound to the configured table: [select(..).all()],
    [find(id)], [create([..])]. *)
Record Base := {
  select_all : select_params -> AirtableError + list record;
  find : string -> AirtableError + record;
  create : list (gmap string jsval) -> AirtableError + list record
}.

(** [!tableName] is false: the environment variable is set and not empty. *)
Definition configured (tableName : option string) : bool :=
  match tableName with
  | Some s => nonempty s
  | None => false
  end.

(* ===================================================================== *)
(** ** routes/tools.js: GET / *)
(* ===================================================================== *)

(** The template literal pushed for a search term. *)
Definition searchClause (searchTerm : string) : string :=
  "OR(" +:+ LF +:+
  spaces 16 +:+ "SEARCH('" +:+ searchTerm +:+ "', {title})," +:+ LF +:+
  spaces 16 +:+ "SEARCH('" +:+ searchTerm +:+ "', {description})," +:+ LF +:+
  spaces 16 +:+ "SEARCH('" +:+ searchTerm +:+ "', {tags})" +:+ LF +:+
  spaces 12 +:+ ")".

Definition searchTermOf (search : string) : string :=
  escapeQuotes (toLowerCase search).

Definition searchPart (search : jsval) : result (list string) :=
  if truthy search then
    match search with
    | JStr s => Ok [searchClause (searchTermOf s)]
    | _ => Throw (TypeError "search.toLowerCase is not a function")
    end
  else Ok [].

Definition categoryList (category : string) : list string :=
  List.filter nonempty
    (List.map (fun cat => escapeQuotes (trim cat)) (split comma category)).

Definition tagFormula (catTerm : string) : string :=
  "SEARCH('" +:+ catTerm +:+ "', {tags})".

Definition categoryClause (categoryList : list string) : string :=
  "OR(" +:+ join ", " (List.map tagFormula categoryList) +:+ ")".

Definition categoryPart (category : jsval) : result (list string) :=
  if truthy category then
    match category with
    | JStr s =>
        let l := categoryList s in
        if (0 <? length l)%nat then Ok [categoryClause l] else Ok []
    | _ => Throw (TypeError "category.split is not a function")
    end
  else Ok [].

Definition formulaParts (search category : jsval) : result (list string) :=
  s <~ searchPart search ;;
  c <~ categoryPart category ;;
  Ok (s ++ c).

Definition combine (formulaParts : list string) : string :=
  if (0 <? length formulaParts)%nat
  then "AND(" +:+ join ", " formulaParts +:+ ")"
  else "".

Definition validSortFields : list string := ["title"; "rating"].

(** [Array.prototype.includes] on an array of strings. *)
Definition includes (l : list string) (v : jsval) : bool :=
  match v with
  | JStr s => existsb (String.eqb s) l
  | _ => false
  end.

(** A destructuring default: it applies to [undefined] only. *)
Definition defaulted (v dflt : jsval) : jsval :=
  match v with
  | JUndefined => dflt
  | _ => v
  end.

Definition safeSortBy (sortBy : jsval) : jsval :=
  let sortBy := defaulted sortBy (JStr "title") in
  if includes validSortFields sortBy then sortBy else JStr "title".

Definition safeSortOrder (sortOrder : jsval) : string :=
  match defaulted sortOrder (JStr "asc") with
  | JStr s => if String.eqb s "desc" then "desc" else "asc"
  | _ => "asc"
  end.

Definition fieldsToSelect : list string :=
  ["title"; "description"; "link"; "tags"; "rating"; "thumbnail"; "author"].

Definition selectOf (query : gmap string jsval) (parts : list string)
  : select_params :=
  {| pageSize := 100;
     filterByFormula := combine parts;
     sort := [(safeSortBy (get query "sortBy"),
               safeSortOrder (get query "sortOrder"))];
     fields := fieldsToSelect |}.

Definition listTools (tableName : option string) (base : Base)
    (query : gmap string jsval) : list store_call * outcome :=
  if negb (configured tableName)
  then ([], Next (Error "Airtable table name not configured." None None))
  else
    match formulaParts (get query "search") (get query "category") with
    | Throw e => ([], Rejected e)
    | Ok parts =>
        let p := selectOf query parts in
        ([Select p],
         match select_all base p with
         | inr records => Json 200 (BTools (List.map formatRecord records))
         | inl err => Next (StoreError err)
         end)
    end.

(* ===================================================================== *)
(** ** routes/tools.js: GET /:id *)
(* ===================================================================== *)

Definition isNotFound (err : AirtableError) : bool :=
  match ae_statusCode err with
  | Some c => (c =? 404)%Z
  | None => false
  end || String.eqb (ae_error err) "NOT_FOUND".

Definition notFoundMessage (rid : string) : string :=
  "Tool with ID '" +:+ rid +:+ "' not found".

Definition getTool (tableName : option string) (base : Base) (rid : string)
  : list store_call * outcome :=
  if negb (configured tableName)
  then ([], Next (Error "Airtable table name not configured." None None))
  else
    ([Find rid],
     match find base rid with
     | inr r => Json 200 (BTool (formatRecord r))
     | inl err =>
         if isNotFound err
         then Next (Error (notFoundMessage rid) (Some 404%Z) None)
         else Next (StoreError err)
     end).

(* ===================================================================== *)
(** ** routes/tools.js: POST /submit *)
(* ===================================================================== *)

(** [v?.trim()]: short-circuits on undefined and null, trims a string, and
    raises on any other value, which has no [trim] method. *)
Definition optTrim (v : jsval) : result jsval :=
  match v with
  | JUndefined | JNull => Ok JUndefined
  | JStr s => Ok (JStr (trim s))
  | _ => Throw (TypeError "receivedData[...]?.trim is not a function")
  end.

(** [!v?.trim()]. *)
Definition isBlank (v : jsval) : result bool :=
  t <~ optTrim v ;; Ok (negb (truthy t)).

(** The four checks of the handler, in source order.  [URL_ok s] says that
    [new URL(s)] returns instead of throwing. *)
Definition validate (URL_ok : string -> bool)
    (receivedData : gmap string jsval) : result (gmap string string) :=
  let errors : gmap string string := ∅ in
  b <~ isBlank (get receivedData "Tool Name") ;;
  let errors :=
    if b : bool then <["Tool Name" := "Tool Name is required"]> errors
    else errors in
  b <~ isBlank (get receivedData "URL") ;;
  let errors :=
    if b : bool then <["URL" := "Tool URL is required"]> errors
    else match get receivedData "URL" with
         | JStr s =>
             if URL_ok s then errors
             else <["URL" := "Invalid URL format"]> errors
         | _ => errors
         end in
  b <~ isBlank (get receivedData "Description") ;;
  let errors :=
    if b : bool then <["Description" := "Description is required"]> errors
    else errors in
  b <~ isBlank (get receivedData "Category") ;;
  let errors :=
    if b : bool then <["Category" := "Category is required"]> errors
    else errors in
  Ok errors.

Definition newToolData (receivedData : gmap string jsval)
  : gmap string jsval :=
  let d : gmap string jsval :=
    <["title" := get receivedData "Tool Name"]>
    (<["link" := get receivedData "URL"]>
    (<["description" := get receivedData "Description"]>
    (<["tags" := get receivedData "Category"]> ∅))) in
  if truthy (get receivedData "Image URL")
  then <["thumbnail" := get receivedData "Image URL"]> d
  else d.

Definition submitTool (tableName : option string) (URL_ok : string -> bool)
    (base : Base) (receivedData : gmap string jsval)
  : list store_call * outcome :=
  if negb (configured tableName)
  then ([], Next (Error "Airtable table name is not configured." None None))
  else
    match validate URL_ok receivedData with
    | Throw e => ([], Rejected e)
    | Ok errors =>
        if (0 <? size errors)%nat
        then ([], Next (Error "Validation failed" (Some 400%Z) (Some errors)))
        else
          let rows := [newToolData receivedData] in
          ([Create rows],
           match create base rows with
           | inr (r :: _) => Json 201 (BTool (formatRecord r))
           | inr [] =>
               Next (TypeError
                 "Cannot read properties of undefined (reading 'fields')")
           | inl err => Next (StoreError err)
           end)
    end.

(* ===================================================================== *)
(** ** server.js: the general error handler *)
(* ===================================================================== *)

Definition err_status (e : js_error) : option Z :=
  match e with
  | Error _ st _ => st
  | _ => None
  end.

Definition err_message (e : js_error) : string :=
  match e with
  | Error m _ _ => m
  | TypeError m => m
  | StoreError a => ae_message a
  end.

(** A status code the response head can carry: 100 to 999.  With any other
    number [res.status(..).json(..)] throws while writing the head. *)
Definition validStatus (s : Z) : bool := (100 <=? s)%Z && (s <=? 999)%Z.

(** [err.status || 500]. *)
Definition statusOrDefault (e : js_error) : Z :=
  match err_status e with
  | Some s => if (s =? 0)%Z then 500%Z else s
  | None => 500%Z
  end.

(** [res.status(err.status || 500).json({ message: err.message || ... })].
    When the status is no valid code the call throws inside the handler and
    the framework's last handler answers in its place: status 500 and its
    own error page ([BErrorPage]) instead of the JSON message. *)
Definition errorHandler (e : js_error) : Z * body :=
  if validStatus (statusOrDefault e)
  then (statusOrDefault e,
        BMessage (if nonempty (err_message e) then err_message e
                  else "An unexpected error occurred on the server."))
  else (500%Z, BErrorPage).

(** What the client receives, if anything. *)
Definition reply (o : outcome) : option (Z * body) :=
  match o with
  | Json st b => Some (st, b)
  | Next e => Some (errorHandler e)
  | Rejected _ => None
  end.

(* ===================================================================== *)
(** ** The store's formula language, as far as the route emits it *)
(* ===================================================================== *)

Inductive layout : Type := Inline | Block.

#[warnings="-register-all"]
Inductive formula : Type :=
  | FSearch (needle field : string)
  | FOr (lay : layout) (args : list formula)
  | FAnd (args : list formula).

(** Concrete syntax, with the two layouts used by the route's templates. *)
Fixpoint render (f : formula) : string :=
  match f with
  | FSearch needle field => "SEARCH('" +:+ needle +:+ "', {" +:+ field +:+ "})"
  | FOr Inline args => "OR(" +:+ join ", " (List.map render args) +:+ ")"
  | FOr Block args =>
      "OR(" +:+ LF +:+ spaces 16 +:+
      join ("," +:+ LF +:+ spaces 16) (List.map render args) +:+
      LF +:+ spaces 12 +:+ ")"
  | FAnd args => "AND(" +:+ join ", " (List.map render args) +:+ ")"
  end.

(** Truth of a formula on one record; [hit needle field] is the store's
    [SEARCH] of the literal [needle] in that record's [field]. *)
Fixpoint eval (hit : string -> string -> bool) (f : formula) : bool :=
  match f with
  | FSearch needle field => hit needle field
  | FOr _ args => existsb (eval hit) args
  | FAnd args => forallb (eval hit) args
  end.

Definition searchFormula (searchTerm : string) : formula :=
  FOr Block [FSearch searchTerm "title"; FSearch searchTerm "description";
             FSearch searchTerm "tags"].

Definition categoryFormula (categoryList : list string) : formula :=
  FOr Inline (List.map (fun t => FSearch t "tags") categoryList).

(** Modelled from the spec: the store's formula grammar is not in the
    repository.  The route's escaping (spec 4.1, step 1: a quote is written
    backslash, quote) fixes the one rule used here: inside a single-quoted
    literal a backslash takes the next character with it, and a quote that
    no backslash took ends the literal.  [literalBody b] holds when [b],
    written between two quotes, is one literal that ends at the second. *)
Fixpoint literalBody (b : string) : bool :=
  match b with
  | "" => true
  | String c r =>
      if Ascii.eqb c backslash then
        match r with
        | "" => false
        | String _ r' => literalBody r'
        end
      else if Ascii.eqb c quote then false
      else literalBody r
  end.

Fixpoint hasChar (x : ascii) (s : string) : bool :=
  match s with
  | "" => false
  | String c r => Ascii.eqb c x || hasChar x r
  end.

(* ===================================================================== *)
(** ** The scheme stage of the platform's URL constructor *)
(* ===================================================================== *)

Definition is_alpha (c : ascii) : bool :=
  let n := nat_of_ascii c in
  ((65 <=? n)%nat && (n <=? 90)%nat) || ((97 <=? n)%nat && (n <=? 122)%nat).

Definition is_scheme_char (c : ascii) : bool :=
  let n := nat_of_ascii c in
  is_alpha c || ((48 <=? n)%nat && (n <=? 57)%nat)
  || (n =? 43)%nat || (n =? 45)%nat || (n =? 46)%nat.

Definition is_c0_or_space (c : ascii) : bool := (nat_of_ascii c <=? 32)%nat.

Fixpoint stripStart (s : string) : string :=
  match s with
  | "" => ""
  | String c r => if is_c0_or_space c then stripStart r else s
  end.

Fixpoint dropTabNewline (s : string) : string :=
  match s with
  | "" => ""
  | String c r =>
      let n := nat_of_ascii c in
      if (n =? 9)%nat || (n =? 10)%nat || (n =? 13)%nat
      then dropTabNewline r else String c (dropTabNewline r)
  end.

Fixpoint schemeRest (s : string) : bool :=
  match s with
  | "" => false
  | String c r =>
      if Ascii.eqb c ":"%char then true
      else if is_scheme_char c then schemeRest r else false
  end.

(** [new URL(s)] without a base: leading controls and spaces are stripped,
    tabs and newlines removed, and the input must then start with a letter
    followed by scheme characters and a colon; otherwise the constructor
    throws.  Later stages (host, port) are not modelled: the handlers take
    the constructor as a parameter, and this instance serves the concrete
    runs below. *)
Definition URL_scheme (s : string) : bool :=
  match dropTabNewline (stripStart s) with
  | "" => false
  | String c r => is_alpha c && schemeRest r
  end.

(* ===================================================================== *)
(** ** pages/HomePage.tsx: filter state, debounce and the fetch effect *)
(* ===================================================================== *)

Module HomePage.

(** The query parameters that leave [getTools]: a parameter that is
    undefined or empty is not sent. *)
Record params := {
  search : option string;
  category : option string;
  sortBy : string;
  sortOrder : string
}.

(** Component state, the one pending debounced call ([lastArgs] and
    [lastCallTime]), the clock, and the log of issued fetches. *)
Record state := {
  inputValue : string;
  searchTerm : string;
  selectedCategories : list (string * bool);
  sortValue : string;
  pending : option (string * nat);
  now : nat;
  fetched : list params
}.

Definition wait : nat := 400.

(** [x || dflt] on strings. *)
Definition orElse (x dflt : string) : string :=
  if nonempty x then x else dflt.

(** [const [field, order] = sortValue.split('-')] and the two defaults. *)
Definition sortPair (sortValue : string) : string * string :=
  let parts := split dash sortValue in
  (orElse (nth 0 parts "") "title", orElse (nth 1 parts "") "asc").

Definition activeCategories (sel : list (string * bool)) : list string :=
  List.map fst (List.filter snd sel).

Definition categoryParam (sel : list (string * bool)) : option string :=
  let active := activeCategories sel in
  if (0 <? length active)%nat then Some (join "," active) else None.

(** A parameter survives [getTools] when it is neither undefined nor
    empty. *)
Definition sent (v : option string) : option string :=
  match v with
  | Some s => if nonempty s then Some s else None
  | None => None
  end.

(** The request issued by [fetchTools] in state [s]. *)
Definition fetchParams (s : state) : params :=
  {| search := sent (if nonempty (searchTerm s) then Some (searchTerm s)
                     else None);
     category := sent (categoryParam (selectedCategories s));
     sortBy := fst (sortPair (sortValue s));
     sortOrder := snd (sortPair (sortValue s)) |}.

(** The effect on [fetchTools]: runs after a render in which one of the
    callback's dependencies changed. *)
Definition runEffect (s : state) : state :=
  {| inputValue := inputValue s; searchTerm := searchTerm s;
     selectedCategories := selectedCategories s; sortValue := sortValue s;
     pending := pending s; now := now s;
     fetched := fetched s ++ [fetchParams s] |}.

(** [setSearchTerm(v)]: an equal value leaves the state, the memoised
    callback and therefore the effect untouched. *)
Definition setSearchTerm (v : string) (s : state) : state :=
  if String.eqb v (searchTerm s) then s
  else runEffect
    {| inputValue := inputValue s; searchTerm := v;
       selectedCategories := selectedCategories s;
       sortValue := sortValue s; pending := pending s; now := now s;
       fetched := fetched s |}.

(** [handleSearchInputChange]: the visible text changes at once, the
    debounced setter records its argument and restarts its quiet period. *)
Definition handleSearchInputChange (text : string) (s : state) : state :=
  {| inputValue := text; searchTerm := searchTerm s;
     selectedCategories := selectedCategories s; sortValue := sortValue s;
     pending := Some (text, now s); now := now s; fetched := fetched s |}.

(** Modelled from the spec: [lodash.debounce] is a dependency, not code of
    the repository.  Spec 9: the callback runs once [wait] quiet time
    units have passed since the last call, with the arguments of that
    call; a call before that restarts the period. *)
Definition elapse (d : nat) (s : state) : state :=
  let s' :=
    {| inputValue := inputValue s; searchTerm := searchTerm s;
       selectedCategories := selectedCategories s;
       sortValue := sortValue s; pending := pending s; now := now s + d;
       fetched := fetched s |} in
  match pending s with
  | Some (v, t0) =>
      if (wait <=? now s + d - t0)%nat
      then setSearchTerm v
        {| inputValue := inputValue s; searchTerm := searchTerm s;
           selectedCategories := selectedCategories s;
           sortValue := sortValue s; pending := None; now := now s + d;
           fetched := fetched s |}
      else s'
  | None => s'
  end.

(** [{ ...selectedCategories, [name]: checked }]: an existing key keeps its
    place, a new key goes last. *)
Fixpoint assign (name : string) (checked : bool)
    (sel : list (string * bool)) : list (string * bool) :=
  match sel with
  | [] => [(name, checked)]
  | (k, b) :: rest =>
      if String.eqb k name then (k, checked) :: rest
      else (k, b) :: assign name checked rest
  end.

(** [handleCheckboxChange]: a fresh object, so the effect always runs. *)
Definition handleCheckboxChange (name : string) (checked : bool)
    (s : state) : state :=
  runEffect
    {| inputValue := inputValue s; searchTerm := searchTerm s;
       selectedCategories := assign name checked (selectedCategories s);
       sortValue := sortValue s; pending := pending s; now := now s;
       fetched := fetched s |}.

Definition pair_eqb (a b : string * string) : bool :=
  String.eqb (fst a) (fst b) && String.eqb (snd a) (snd b).

(** [handleSortChange]: the effect runs when the derived field or order
    changed. *)
Definition handleSortChange (v : string) (s : state) : state :=
  let s' :=
    {| inputValue := inputValue s; searchTerm := searchTerm s;
       selectedCategories := selectedCategories s; sortValue := v;
       pending := pending s; now := now s; fetched := fetched s |} in
  if pair_eqb (sortPair v) (sortPair (sortValue s)) then s' else runEffect s'.

Inductive event : Type :=
  | Keystroke (text : string)
  | Elapse (d : nat)
  | Toggle (name : string) (checked : bool)
  | SelectSort (v : string).

Definition step (s : state) (e : event) : state :=
  match e with
  | Keystroke text => handleSearchInputChange text s
  | Elapse d => elapse d s
  | Toggle n c => handleCheckboxChange n c s
  | SelectSort v => handleSortChange v s
  end.

Definition run (s : state) (es : list event) : state := fold_left step es s.

(** The component after mounting: initial state and the first fetch. *)
Definition mounted : state :=
  runEffect
    {| inputValue := ""; searchTerm := ""; selectedCategories := [];
       sortValue := "title-asc"; pending := None; now := 0; fetched := [] |}.

(** The page after the user typed vr and the debounce settled. *)
Definition settledOnVr : state :=
  fold_left step
    [Keystroke "v"; Elapse 100; Keystroke "vr"; Elapse 400] mounted.

(** A burst of typing: a first keystroke, then further ones each less
    than [wait] after its predecessor, then a pause of [d]. *)
Definition later (ks : list (nat * string)) : list event :=
  flat_map (fun gk => [Elapse (fst gk); Keystroke (snd gk)]) ks.

Definition typing (first : string) (ks : list (nat * string)) (d : nat)
  : list event :=
  Keystroke first :: later ks ++ [Elapse d].

Definition finalText (first : string) (ks : list (nat * string)) : string :=
  List.last (List.map snd ks) first.

Definition rapid (ks : list (nat * string)) : Prop :=
  Forall (fun gk => fst gk < wait) ks.

End HomePage.

(* ===================================================================== *)
(** ** Reference descriptions used by the statements below *)
(* ===================================================================== *)

(** The term list in the words of the specification: split on commas, trim
    each segment, drop the empty ones. *)
Definition splitTrimDrop (category : string) : list string :=
  List.filter nonempty (List.map trim (split comma category)).

(** The clause a query parameter gives rise to, if any. *)
Definition searchClauseFor (search : jsval) : option formula :=
  match search with
  | JStr s => if nonempty s then Some (searchFormula (searchTermOf s)) else None
  | _ => None
  end.

Definition categoryClauseFor (category : jsval) : option formula :=
  match category with
  | JStr c =>
      match categoryList c with
      | [] => None
      | l => Some (categoryFormula l)
      end
  | _ => None
  end.

(** A query or body value that is a string or absent. *)
Definition textual (v : jsval) : bool :=
  match v with
  | JUndefined | JNull | JStr _ => true
  | _ => false
  end.

(** Missing, or blank after trimming. *)
Definition blankField (v : jsval) : bool :=
  match v with
  | JUndefined | JNull => true
  | JStr s => negb (nonempty (trim s))
  | _ => false
  end.

(** Present and not blank, but rejected by the URL constructor. *)
Definition malformedURL (URL_ok : string -> bool) (v : jsval) : bool :=
  match v with
  | JStr s => nonempty (trim s) && negb (URL_ok s)
  | _ => false
  end.

Definition flag (b : bool) (k : string) : gset string :=
  if b then {[ k ]} else ∅.

(** The four required fields of a submission. *)
Definition required : list string :=
  ["Tool Name"; "URL"; "Description"; "Category"].

(** The keys that violate a rule of the submission contract. *)
Definition violations (URL_ok : string -> bool)
    (receivedData : gmap string jsval) : gset string :=
  flag (blankField (get receivedData "Tool Name")) "Tool Name"
  ∪ flag (blankField (get receivedData "URL")
          || malformedURL URL_ok (get receivedData "URL")) "URL"
  ∪ flag (blankField (get receivedData "Description")) "Description"
  ∪ flag (blankField (get receivedData "Category")) "Category".

Definition mkRecord (rid : string) (flds : gmap string jsval) : record :=
  {| rec_id := rid; rec_fields := flds |}.

(** A small store for concrete runs: one known record, creation echoes the
    submitted fields under a fresh id. *)
Definition memBase : Base :=
  {| select_all := fun _ => inr [];
     find := fun rid =>
       if String.eqb rid "rec1"
       then inr (mkRecord "rec1" {[ "title" := JStr "Orbit Lab" ]})
       else inl {| ae_error := "NOT_FOUND";
                   ae_message := "Could not find what you are looking for";
                   ae_statusCode := Some 404%Z |};
     create := fun rows => inr (List.map (mkRecord "rec2") rows) |}.

(** The store's report that it does not know the requested id: an error
    with status code 404, or with the error code NOT_FOUND. *)
Definition reportsUnknown (err : AirtableError) : Prop :=
  ae_statusCode err = Some 404%Z \/ ae_error err = "NOT_FOUND".

(** Modelled from the spec: the record store is a hosted service, not code
    of the repository.  Spec 6 asks of it single-record retrieval by opaque
    id, and spec 4.1 that it reports an unknown id.  [rows] holds the fields
    of each record under its id; [down], when set, is a failure of the
    service as a whole.  An id without a row is reported with the error
    NOT_FOUND and status code 404. *)
Record Table := {
  rows : gmap string (gmap string jsval);
  down : option AirtableError
}.

Definition unknownIdError : AirtableError :=
  {| ae_error := "NOT_FOUND";
     ae_message := "Could not find what you are looking for";
     ae_statusCode := Some 404%Z |}.

Definition tableFind (t : Table) (rid : string) : AirtableError + record :=
  match down t with
  | Some err => inl err
  | None =>
      match rows t !! rid with
      | Some flds => inr (mkRecord rid flds)
      | None => inl unknownIdError
      end
  end.

(** A store whose [find] is served from the table [t]. *)
Definition tableBase (other : Base) (t : Table) : Base :=
  {| select_all := select_all other;
     find := tableFind t;
     create := create other |}.

Definition sampleTable : Table :=
  {| rows := {[ "rec1" := {[ "title" := JStr "Orbit Lab" ]} ]};
     down := None |}.

Definition sampleSubmission : gmap string jsval :=
  <["Tool Name" := JStr "Orbit Lab"]>
  (<["URL" := JStr "https://example.org/orbit"]>
  (<["Description" := JStr "A solar system walk"]>
  (<["Category" := JStr "Space"]> ∅))).

(** Two required fields missing, and a URL without a scheme. *)
Definition malformedSubmission : gmap string jsval :=
  <["URL" := JStr "not a url"]> (<["Category" := JStr "VR"]> ∅).

(** A blank Description and no Category. *)
Definition blankSubmission : gmap string jsval :=
  <["Tool Name" := JStr "Orbit Lab"]>
  (<["URL" := JStr "https://example.org/orbit"]>
  (<["Description" := JStr "   "]> ∅)).


(* ===================================================================== *)
(** ** server.js: the reply of the general error handler in full, and the
       middleware for unmatched routes *)
(* ===================================================================== *)

(** The JSON body of an error reply: [message], and [stack] when the
    process runs in development mode. *)
Record errorReply := {
  er_status : Z;
  er_message : string;
  er_stack : option string
}.

(** How the general error handler ends: the JSON reply went out, or
    [res.status(s)] was given a number [s] that is no valid status code and
    the call threw before anything was sent. *)
Inductive errorOutcome : Type :=
  | Answered (r : errorReply)
  | Refused (status : Z).

(** [stack err] stands for the [err.stack] text the engine attached. *)
Definition generalErrorHandler (NODE_ENV : option string)
    (stack : js_error -> string) (err : js_error) : errorOutcome :=
  if validStatus (statusOrDefault err)
  then Answered
    {| er_status := statusOrDefault err;
       er_message := if nonempty (err_message err) then err_message err
                     else "An unexpected error occurred on the server.";
       er_stack := match NODE_ENV with
                   | Some env => if String.eqb env "development"
                                 then Some (stack err) else None
                   | None => None
                   end |}
  else Refused (statusOrDefault err).



(* ===================================================================== *)
(** ** Character tests used in the statements *)
(* ===================================================================== *)

Fixpoint allChars (p : ascii -> bool) (s : string) : bool :=
  match s with
  | "" => true
  | String c r => p c && allChars p r
  end.

Definition firstChar (s : string) : option ascii :=
  match s with
  | "" => None
  | String c _ => Some c
  end.

Fixpoint lastChar (s : string) : option ascii :=
  match s with
  | "" => None
  | String c "" => Some c
  | String _ r => lastChar r
  end.

Definition is_ws_or_comma (c : ascii) : bool := is_ws c || Ascii.eqb c comma.

(** A category name that survives the trip through the [category]
    parameter unchanged: not empty, no comma, no single quote, no white
    space at either end. *)
Definition plainName (s : string) : bool :=
  nonempty s && negb (hasChar comma s) && negb (hasChar quote s)
  && match firstChar s with Some c => negb (is_ws c) | None => false end
  && match lastChar s with Some c => negb (is_ws c) | None => false end.

(* ===================================================================== *)
(** ** pages/HomePage.tsx: the option tables *)
(* ===================================================================== *)

Fixpoint insertSorted (x : string) (l : list string) : list string :=
  match l with
  | [] => [x]
  | y :: rest => if String.leb x y then x :: l else y :: insertSorted x rest
  end.

(** [Array.prototype.sort()] without a comparator, on strings: ascending by
    code units. *)
Definition sortStrings (l : list string) : list string :=
  fold_right insertSorted [] l.

Definition CHECKBOX_CATEGORIES : list string :=
  sortStrings
    ["Science"; "History"; "Geography"; "Arts";
     "360 Video"; "Simulation"; "VR"; "Exploration";
     "Space"; "Social Studies"; "Health / Medicine"; "Technology";
     "Creativity / Design"; "Documentary"; "Interactive Story / Narrative";
     "Productivity"].

(** The keys of [SORT_OPTIONS]. *)
Definition SORT_OPTIONS : list string :=
  ["title-asc"; "title-desc"; "rating-desc"; "rating-asc"].

(** The checkbox state after a series of changes, starting from the empty
    object of the first render. *)
Definition selectionAfter (changes : list (string * bool))
  : list (string * bool) :=
  fold_left (fun sel ch => HomePage.assign (fst ch) (snd ch) sel) changes [].

(* ===================================================================== *)
(** ** pages/SubmitPage.tsx: form validation and payload *)
(* ===================================================================== *)

Module SubmitPage.

(** The form state; the fields stand for the keys 'Tool Name', 'URL',
    'Description', 'Category', 'Pricing' and 'Image URL'. *)
Record FormData := {
  toolName : string;
  url : string;
  description : string;
  category : string;
  pricing : string;
  imageUrl : string
}.

(** The [errors] object built by [validateForm]. *)
Definition validateForm (URL_ok : string -> bool) (formData : FormData)
  : gmap string string :=
  let errors : gmap string string := ∅ in
  let errors :=
    if negb (nonempty (trim (toolName formData)))
    then <["Tool Name" := "Tool Name is required"]> errors else errors in
  let errors :=
    if negb (nonempty (trim (url formData)))
    then <["URL" := "Tool URL is required"]> errors
    else if URL_ok (url formData) then errors
         else <["URL" := "Invalid URL format (e.g., https://...)"]> errors in
  let errors :=
    if negb (nonempty (trim (description formData)))
    then <["Description" := "Description is required"]> errors else errors in
  let errors :=
    if negb (nonempty (category formData))
    then <["Category" := "Category is required"]> errors else errors in
  let errors :=
    if negb (nonempty (pricing formData))
    then <["Pricing" := "Pricing model is required"]> errors else errors in
  errors.

(** [apiPayload] as it arrives in [req.body]: the JSON encoding drops the
    'Image URL' key when its value is undefined. *)
Definition apiPayload (formData : FormData) : gmap string jsval :=
  let p : gmap string jsval :=
    <["Tool Name" := JStr (toolName formData)]>
    (<["URL" := JStr (url formData)]>
    (<["Description" := JStr (description formData)]>
    (<["Category" := JStr (category formData)]>
    (<["Pricing" := JStr (pricing formData)]> ∅)))) in
  if nonempty (imageUrl formData)
  then <["Image URL" := JStr (imageUrl formData)]> p else p.

(** [handleSubmit]: the request body, if the form passes [validateForm]. *)
Definition handleSubmit (URL_ok : string -> bool) (formData : FormData)
  : option (gmap string jsval) :=
  if (size (validateForm URL_ok formData) =? 0)%nat
  then Some (apiPayload formData) else None.

End SubmitPage.

(* ===================================================================== *)
(** ** components/ToolCard.tsx and pages/ToolDetailPage.tsx: image and
       category display *)
(* ===================================================================== *)

Module ToolCard.

Definition PLACEHOLDER_IMAGE : string := "https://i.imgur.com/eaOsWHB.png".

(** The initial [imageUrl] state. *)
Definition initialImage (tool : Tool.t) : jsval :=
  js_or (Tool.imageUrl tool) (JStr PLACEHOLDER_IMAGE).

Definition handleImageError (current : jsval) : jsval :=
  JStr PLACEHOLDER_IMAGE.

End ToolCard.

Module ToolDetailPage.

Definition PLACEHOLDER_IMAGE : string :=
  "https://via.placeholder.com/600x400.png?text=XR+Edu+Tool+Details".

(** The [imageUrl] state once the tool has been fetched. *)
Definition fetchedImage (tool : Tool.t) : jsval :=
  js_or (Tool.imageUrl tool) (JStr PLACEHOLDER_IMAGE).

Definition handleImageError (current : jsval) : jsval :=
  JStr PLACEHOLDER_IMAGE.

(** [Array.isArray(c) ? c : (c ? [c] : [])]. *)
Definition displayCategories (c : jsval) : list jsval :=
  match c with
  | JArr items => items
  | _ => if truthy c then [c] else []
  end.

End ToolDetailPage.

(* ===================================================================== *)
(** ** Stores, forms and counters for concrete runs *)
(* ===================================================================== *)

(** A store with two records, and one that always fails. *)
Definition twoRecordBase : Base :=
  {| select_all := fun _ =>
       inr [mkRecord "recA" {[ "title" := JStr "Atlas" ]}; mkRecord "recB" ∅];
     find := find memBase;
     create := create memBase |}.

Definition busyBase : Base :=
  let err := {| ae_error := "RATE_LIMIT"; ae_message := "Too many requests";
                ae_statusCode := Some 429%Z |} in
  {| select_all := fun _ => inl err;
     find := fun _ => inl err;
     create := fun _ => inl err |}.

Fixpoint countChar (x : ascii) (s : string) : nat :=
  match s with
  | "" => 0
  | String c r => (if Ascii.eqb c x then 1 else 0) + countChar x r
  end.

(** The body keys the submit handler reads. *)
Definition submissionKeys : list string :=
  ["Tool Name"; "URL"; "Description"; "Category"; "Image URL"].

(** A form as a visitor would fill it in, without an image. *)
Definition sampleForm : SubmitPage.FormData :=
  {| SubmitPage.toolName := "Orbit Lab";
     SubmitPage.url := "https://example.org/orbit";
     SubmitPage.description := "A solar system walk";
     SubmitPage.category := "Science";
     SubmitPage.pricing := "Free";
     SubmitPage.imageUrl := "" |}.

(* ===================================================================== *)
(** ** Truthiness and property reads *)
(* ===================================================================== *)

Lemma get_insert (o : gmap string jsval) (k k' : string) (v : jsval) :
  get (<[k := v]> o) k' = if decide (k = k') then v else get o k'.
Proof.
  unfold get. rewrite lookup_insert. by case_decide.
Qed.

Lemma get_delete (o : gmap string jsval) (k k' : string) :
  get (delete k o) k' = if decide (k = k') then JUndefined else get o k'.
Proof.
  unfold get. rewrite lookup_delete. by case_decide.
Qed.

Lemma js_or_falsy (a b : jsval) : truthy a = false -> js_or a b = b.
Proof. unfold js_or. by intros ->. Qed.

Lemma js_or_truthy (a b : jsval) : truthy a = true -> js_or a b = a.
Proof. unfold js_or. by intros ->. Qed.

Lemma js_or_not_empty (a b : jsval) : b <> JStr "" -> js_or a b <> JStr "".
Proof.
  intros Hb. unfold js_or. destruct (truthy a) eqn:Ha; [|done].
  intros ->. discriminate.
Qed.

(** Writing a falsy value under a key and removing the key read the same
    through [||]. *)
Lemma js_or_get_falsy (o : gmap string jsval) (k k' : string) (v d : jsval) :
  truthy v = false ->
  js_or (get (<[k := v]> o) k') d = js_or (get (delete k o) k') d.
Proof.
  intros Hv. rewrite get_insert, get_delete.
  case_decide; [|done]. by rewrite js_or_falsy.
Qed.

(* ===================================================================== *)
(** ** formatRecord *)
(* ===================================================================== *)

(** C10: [formatRecord] treats every falsy stored value as missing.  Storing
    a falsy value under any key gives the same normalised record as removing
    the key; an empty title gives the name 'Untitled Tool' and an empty
    link, tags, thumbnail or author gives null; and no normalised record has
    the empty string as its name, url, category, imageUrl or author. *)
Theorem formatRecord_falsy_is_missing :
  (forall rid flds k v, truthy v = false ->
     formatRecord (mkRecord rid (<[k := v]> flds))
     = formatRecord (mkRecord rid (delete k flds)))
  /\ (forall rid flds,
        Tool.name (formatRecord (mkRecord rid (<["title" := JStr ""]> flds)))
        = JStr "Untitled Tool"
        /\ Tool.url (formatRecord (mkRecord rid (<["link" := JStr ""]> flds)))
           = JNull
        /\ Tool.category
             (formatRecord (mkRecord rid (<["tags" := JStr ""]> flds))) = JNull
        /\ Tool.imageUrl
             (formatRecord (mkRecord rid (<["thumbnail" := JStr ""]> flds)))
           = JNull
        /\ Tool.author
             (formatRecord (mkRecord rid (<["author" := JStr ""]> flds)))
           = JNull)
  /\ (forall r,
        Tool.name (formatRecord r) <> JStr ""
        /\ Tool.url (formatRecord r) <> JStr ""
        /\ Tool.category (formatRecord r) <> JStr ""
        /\ Tool.imageUrl (formatRecord r) <> JStr ""
        /\ Tool.author (formatRecord r) <> JStr "").
Proof.
  split; [|split].
  - intros rid flds k v Hv. unfold formatRecord, mkRecord; simpl.
    by rewrite !(js_or_get_falsy _ _ _ _ _ Hv).
  - intros rid flds. unfold formatRecord, mkRecord; simpl.
    rewrite !get_insert. repeat split; by rewrite decide_True.
  - intros r. unfold formatRecord; simpl.
    repeat split; by apply js_or_not_empty.
Qed.

(** A stored rating of 0 and a missing rating give the same record. *)
Lemma formatRecord_falsy_is_missing_witness :
  formatRecord (mkRecord "rec7" (<["rating" := JNum 0]> ∅))
  = formatRecord (mkRecord "rec7" (delete "rating" ∅)).
Proof.
  apply (proj1 formatRecord_falsy_is_missing "rec7" ∅ "rating" (JNum 0)).
  reflexivity.
Defined.

(** What [formatRecord] does with a rating: an absent one normalises to
    null, and so does a rating of 0; every other number is kept. *)
Theorem formatRecord_rating (rid : string) (flds : gmap string jsval) (q : Q) :
  Tool.rating (formatRecord (mkRecord rid (delete "rating" flds))) = JNull
  /\ Tool.rating (formatRecord (mkRecord rid (<["rating" := JNum q]> flds)))
     = (if (Qnum q =? 0)%Z then JNull else JNum q).
Proof.
  unfold formatRecord, mkRecord; simpl. rewrite get_insert, get_delete.
  rewrite !decide_True by done. split; [done|].
  unfold js_or; simpl. by destruct (Qnum q =? 0)%Z.
Qed.

(** C2, at the failing input: a record whose rating field holds the number
    0 must normalise to rating 0, distinct from an absent rating; the code
    reads the field through [||], and the rating comes out as null. *)
Lemma formatRecord_rating_zero_lost :
  Tool.rating (formatRecord (mkRecord "rec7" {[ "rating" := JNum 0 ]})) = JNull
  /\ Tool.rating (formatRecord (mkRecord "rec7" {[ "rating" := JNum 0 ]}))
     <> JNum 0.
Proof. split; [reflexivity | discriminate]. Qed.

(* ===================================================================== *)
(** ** String lemmas *)
(* ===================================================================== *)

Lemma append_nil_l (a : string) : "" +:+ a = a.
Proof. reflexivity. Qed.

Lemma append_cons (x : ascii) (a b : string) :
  String x a +:+ b = String x (a +:+ b).
Proof. reflexivity. Qed.

Lemma append_assoc (a b c : string) : (a +:+ b) +:+ c = a +:+ (b +:+ c).
Proof.
  induction a as [|x a IH]; [done|].
  rewrite !append_cons. by f_equal.
Qed.

(** Flatten nested appends and push literal prefixes inwards. *)
Ltac string_norm :=
  repeat (rewrite append_assoc || rewrite append_cons || rewrite append_nil_l).

Lemma nonempty_escapeQuotes (s : string) :
  nonempty (escapeQuotes s) = nonempty s.
Proof. destruct s as [|c r]; simpl; [done|]. by destruct (Ascii.eqb c quote). Qed.

Lemma escapeQuotes_id (s : string) :
  hasChar quote s = false -> escapeQuotes s = s.
Proof.
  induction s as [|c r IH]; simpl; [done|].
  intros [Hc Hr]%orb_false_iff. rewrite Hc. by rewrite IH.
Qed.

Lemma lower_char_backslash (c : ascii) :
  Ascii.eqb (lower_char c) backslash = Ascii.eqb c backslash.
Proof. by destruct c as [[] [] [] [] [] [] [] []]. Qed.

Lemma hasChar_toLowerCase_backslash (s : string) :
  hasChar backslash (toLowerCase s) = hasChar backslash s.
Proof.
  induction s as [|c r IH]; simpl; [done|].
  by rewrite lower_char_backslash, IH.
Qed.

(** Escaping gives a well-formed literal body when the input has no
    backslash of its own. *)
Lemma literalBody_escapeQuotes (s : string) :
  hasChar backslash s = false -> literalBody (escapeQuotes s) = true.
Proof.
  induction s as [|c r IH]; simpl; [done|].
  intros [Hc Hr]%orb_false_iff.
  destruct (Ascii.eqb c quote) eqn:Hq; simpl.
  - by apply IH.
  - rewrite Hc, Hq. by apply IH.
Qed.

Lemma literalBody_searchTerm (search : string) :
  hasChar backslash search = false -> literalBody (searchTermOf search) = true.
Proof.
  intros H. apply literalBody_escapeQuotes.
  by rewrite hasChar_toLowerCase_backslash.
Qed.


(* ===================================================================== *)
(** ** The emitted text is the concrete syntax of a formula *)
(* ===================================================================== *)

Lemma searchClause_render (t : string) :
  searchClause t = render (searchFormula t).
Proof.
  unfold searchClause, searchFormula, LF. simpl. by string_norm.
Qed.

Lemma tagFormula_render (t : string) :
  tagFormula t = render (FSearch t "tags").
Proof. unfold tagFormula. simpl. by string_norm. Qed.

Lemma categoryClause_render (l : list string) :
  categoryClause l = render (categoryFormula l).
Proof.
  unfold categoryClause, categoryFormula. simpl.
  rewrite List.map_map.
  rewrite (List.map_ext _ _ tagFormula_render). reflexivity.
Qed.

Lemma searchPart_textual (search : jsval) :
  textual search = true ->
  searchPart search
  = Ok (match searchClauseFor search with
        | Some f => [render f]
        | None => []
        end).
Proof.
  destruct search as [| | | |s| |]; try done. intros _.
  unfold searchPart, searchClauseFor; simpl.
  destruct (nonempty s); [|done]. by rewrite searchClause_render.
Qed.

Lemma categoryPart_textual (category : jsval) :
  textual category = true ->
  categoryPart category
  = Ok (match categoryClauseFor category with
        | Some f => [render f]
        | None => []
        end).
Proof.
  destruct category as [| | | |c| |]; try done. intros _.
  unfold categoryPart, categoryClauseFor; simpl.
  destruct (nonempty c) eqn:Hc.
  - destruct (categoryList c) as [|t l] eqn:Hl; [done|].
    simpl. by rewrite categoryClause_render.
  - destruct c; [|done]. reflexivity.
Qed.

Lemma render_FAnd1 (f : formula) :
  render (FAnd [f]) = "AND(" +:+ render f +:+ ")".
Proof. reflexivity. Qed.

Lemma render_FAnd2 (f g : formula) :
  render (FAnd [f; g]) = "AND(" +:+ render f +:+ ", " +:+ render g +:+ ")".
Proof. simpl. by string_norm. Qed.

Lemma combine_cases (sc cc : option formula) :
  combine (match sc with Some f => [render f] | None => [] end
           ++ match cc with Some f => [render f] | None => [] end)
  = match sc, cc with
    | Some f, Some g => "AND(" +:+ render f +:+ ", " +:+ render g +:+ ")"
    | Some f, None => "AND(" +:+ render f +:+ ")"
    | None, Some g => "AND(" +:+ render g +:+ ")"
    | None, None => ""
    end.
Proof. destruct sc, cc; unfold combine; simpl; by string_norm. Qed.

(** One [Select] call, and what it carries. *)
Lemma listTools_select (tableName : option string) (base : Base)
    (query : gmap string jsval) (parts : list string) :
  configured tableName = true ->
  formulaParts (get query "search") (get query "category") = Ok parts ->
  fst (listTools tableName base query) = [Select (selectOf query parts)].
Proof.
  intros Hc Hp. unfold listTools. by rewrite Hc, Hp.
Qed.

(** C1, as the code has it: the list handler sends one filter text to the
    store.  With both clauses it is AND(search clause, category clause);
    with exactly one clause it is AND(that clause), a one-argument AND that
    selects the same records as the clause alone; with no clause it is the
    empty string.  A search clause exists for a non-empty search string, a
    category clause for a category string with at least one non-empty
    term. *)
Theorem listTools_filter (tableName : option string) (base : Base)
    (query : gmap string jsval) :
  configured tableName = true ->
  textual (get query "search") = true ->
  textual (get query "category") = true ->
  (exists p, fst (listTools tableName base query) = [Select p]
     /\ filterByFormula p
        = match searchClauseFor (get query "search"),
                categoryClauseFor (get query "category") with
          | Some f, Some g =>
              "AND(" +:+ render f +:+ ", " +:+ render g +:+ ")"
          | Some f, None => "AND(" +:+ render f +:+ ")"
          | None, Some g => "AND(" +:+ render g +:+ ")"
          | None, None => ""
          end)
  /\ (forall f, render (FAnd [f]) = "AND(" +:+ render f +:+ ")")
  /\ (forall f g,
        render (FAnd [f; g])
        = "AND(" +:+ render f +:+ ", " +:+ render g +:+ ")")
  /\ (forall hit f, eval hit (FAnd [f]) = eval hit f)
  /\ (forall hit f g, eval hit (FAnd [f; g]) = eval hit f && eval hit g).
Proof.
  intros Hc Hs Hg. split; [|split; [|split; [|split]]].
  - eexists. split.
    + apply listTools_select; [done|].
      unfold formulaParts.
      rewrite (searchPart_textual _ Hs), (categoryPart_textual _ Hg).
      reflexivity.
    + simpl. apply combine_cases.
  - apply render_FAnd1.
  - apply render_FAnd2.
  - intros hit f. simpl. by rewrite andb_true_r.
  - intros hit f g. simpl. by rewrite andb_true_r.
Qed.

(** Search and category together: the two clauses under one AND. *)
Lemma listTools_filter_witness :
  exists p,
    fst (listTools (Some "Tools") memBase
           (<["search" := JStr "Moon"]> (<["category" := JStr "VR,Space"]> ∅)))
    = [Select p]
    /\ filterByFormula p
       = "AND(" +:+ searchClause "moon" +:+ ", "
         +:+ "OR(SEARCH('VR', {tags}), SEARCH('Space', {tags}))" +:+ ")".
Proof.
  destruct (listTools_filter (Some "Tools") memBase
              (<["search" := JStr "Moon"]>
                 (<["category" := JStr "VR,Space"]> ∅)))
    as [[p [Hp Hf]] _]; [reflexivity | reflexivity | reflexivity |].
  exists p. split; [exact Hp|]. rewrite Hf. vm_compute. reflexivity.
Defined.

(** C1, refuted as stated: with a search term and no category the filter is
    not the search clause alone but that clause inside AND(...). *)
Lemma listTools_single_clause_wrapped :
  fst (listTools (Some "Tools") memBase {[ "search" := JStr "vr" ]})
  = [Select (selectOf {[ "search" := JStr "vr" ]} [searchClause "vr"])]
  /\ filterByFormula (selectOf {[ "search" := JStr "vr" ]} [searchClause "vr"])
     = "AND(" +:+ searchClause "vr" +:+ ")"
  /\ filterByFormula (selectOf {[ "search" := JStr "vr" ]} [searchClause "vr"])
     <> searchClause "vr".
Proof.
  split; [reflexivity|]. split; [reflexivity|].
  vm_compute. discriminate.
Qed.

(* ===================================================================== *)
(** ** Search term and category terms *)
(* ===================================================================== *)

(** The search clause is an OR over the three fields, for any term. *)
Lemma searchClause_three_fields (t : string) (hit : string -> string -> bool) :
  eval hit (searchFormula t)
  = hit t "title" || hit t "description" || hit t "tags".
Proof. simpl. by rewrite orb_false_r, orb_assoc. Qed.

(** C4, at the failing input: for the search text quote, backslash the term
    placed between the quotes of each SEARCH literal is backslash, quote,
    backslash.  Its last backslash takes the closing quote of the literal,
    so the literal does not end where the template ends it, although every
    quote of the input was escaped. *)
Theorem searchTerm_trailing_backslash :
  searchTermOf "'\" = "\'\"
  /\ literalBody (searchTermOf "'\") = false
  /\ searchPart (JStr "'\") = Ok [searchClause "\'\"]
  /\ contains "SEARCH('\'\', {title})" (searchClause "\'\").
Proof.
  split; [reflexivity|]. split; [reflexivity|]. split; [reflexivity|].
  exists ("OR(" +:+ LF +:+ spaces 16).
  eexists. vm_compute. reflexivity.
Qed.

Lemma filter_escapeQuotes (l : list string) :
  List.filter nonempty (List.map escapeQuotes l)
  = List.map escapeQuotes (List.filter nonempty l).
Proof.
  induction l as [|s l IH]; simpl; [done|].
  rewrite nonempty_escapeQuotes. destruct (nonempty s); simpl; by rewrite IH.
Qed.

Lemma categoryList_escaped (c : string) :
  categoryList c = List.map escapeQuotes (splitTrimDrop c).
Proof.
  unfold categoryList, splitTrimDrop.
  rewrite <- filter_escapeQuotes, List.map_map. reflexivity.
Qed.

Lemma hasChar_trimStart (x : ascii) (s : string) :
  hasChar x s = false -> hasChar x (trimStart s) = false.
Proof.
  induction s as [|c r IH]; simpl; [done|].
  intros H. destruct (is_ws c); [|done].
  apply IH. by apply orb_false_iff in H as [_ ?].
Qed.

Lemma hasChar_trimEnd (x : ascii) (s : string) :
  hasChar x s = false -> hasChar x (trimEnd s) = false.
Proof.
  induction s as [|c r IH]; simpl; [done|].
  intros [Hc Hr]%orb_false_iff. specialize (IH Hr).
  destruct (trimEnd r) as [|c' r'].
  - destruct (is_ws c); simpl; [done|]. by rewrite Hc.
  - simpl in *. by rewrite Hc, IH.
Qed.

Lemma hasChar_split (x sep : ascii) (s : string) :
  hasChar x s = false ->
  Forall (fun seg => hasChar x seg = false) (split sep s).
Proof.
  induction s as [|c r IH]; simpl.
  - intros _. by constructor.
  - intros [Hc Hr]%orb_false_iff. specialize (IH Hr).
    destruct (Ascii.eqb c sep).
    + by constructor.
    + destruct (split sep r) as [|seg segs].
      * constructor; [simpl; by rewrite Hc | constructor].
      * inversion IH; subst. constructor; [simpl|done].
        by rewrite Hc.
Qed.

Lemma splitTrimDrop_no_quote (c : string) :
  hasChar quote c = false ->
  Forall (fun t => hasChar quote t = false) (splitTrimDrop c).
Proof.
  intros H. unfold splitTrimDrop.
  apply List.Forall_forall. intros t [Ht _]%List.filter_In.
  apply List.in_map_iff in Ht as [seg [<- Hseg]].
  pose proof (hasChar_split quote comma c H) as Hall.
  rewrite List.Forall_forall in Hall.
  by apply hasChar_trimEnd, hasChar_trimStart, Hall.
Qed.

(** C5, as the code has it: the term list is the comma-separated segments,
    trimmed, with every single quote escaped, without the empty ones; for an
    input without a quote that is the list of trimmed non-empty segments
    itself.  The sample input gives VR and History, and the clause is an OR
    of one SEARCH in the tags field per term. *)
Theorem categoryList_terms (c : string) :
  categoryList c = List.map escapeQuotes (splitTrimDrop c)
  /\ (hasChar quote c = false -> categoryList c = splitTrimDrop c)
  /\ categoryList " VR , ,History " = ["VR"; "History"]
  /\ (forall l, categoryClause l = render (categoryFormula l))
  /\ (forall l hit,
        eval hit (categoryFormula l) = existsb (fun t => hit t "tags") l).
Proof.
  split; [apply categoryList_escaped|].
  split.
  { intros H. rewrite categoryList_escaped.
    pose proof (splitTrimDrop_no_quote c H) as Hall.
    induction Hall as [|t l Ht _ IH]; simpl; [done|].
    by rewrite (escapeQuotes_id t Ht), IH. }
  split; [reflexivity|].
  split; [apply categoryClause_render|].
  intros l hit. unfold categoryFormula. simpl.
  induction l as [|t l IH]; simpl; [done | by rewrite IH].
Qed.

(** An input without quotes: the terms are the trimmed segments. *)
Lemma categoryList_terms_witness :
  categoryList "Arts, 360 Video" = splitTrimDrop "Arts, 360 Video".
Proof.
  apply (proj1 (proj2 (categoryList_terms "Arts, 360 Video"))).
  reflexivity.
Defined.

(** C5, refuted as stated: a term with a single quote is not the trimmed
    segment but its escaped form. *)
Lemma categoryList_not_plain_segments :
  splitTrimDrop "O'Brien" = ["O'Brien"]
  /\ categoryList "O'Brien" = ["O\'Brien"]
  /\ categoryList "O'Brien" <> splitTrimDrop "O'Brien".
Proof.
  split; [reflexivity|]. split; [reflexivity|].
  vm_compute. discriminate.
Qed.

(* ===================================================================== *)
(** ** Sorting *)
(* ===================================================================== *)

Lemma includes_validSortFields (v : jsval) :
  includes validSortFields v = true <-> v = JStr "title" \/ v = JStr "rating".
Proof.
  destruct v as [| | | |s| |]; simpl;
    try (split; [discriminate | intros [?|?]; discriminate]).
  rewrite orb_false_r, orb_true_iff, !String.eqb_eq.
  split; (intros [H|H]; [left | right]); congruence.
Qed.

(** C6: a [sortBy] outside title and rating, absent included, sorts by
    title; a [sortOrder] other than the string desc, absent included, sorts
    ascending; title, rating and desc are used as given; and the list
    handler passes exactly this pair to the store. *)
Theorem sort_fallbacks :
  (forall v, v <> JStr "title" -> v <> JStr "rating" ->
     safeSortBy v = JStr "title")
  /\ safeSortBy (JStr "title") = JStr "title"
  /\ safeSortBy (JStr "rating") = JStr "rating"
  /\ (forall v, v <> JStr "desc" -> safeSortOrder v = "asc")
  /\ safeSortOrder (JStr "desc") = "desc"
  /\ (forall tableName base query parts,
        configured tableName = true ->
        formulaParts (get query "search") (get query "category") = Ok parts ->
        exists p, fst (listTools tableName base query) = [Select p]
          /\ sort p = [(safeSortBy (get query "sortBy"),
                        safeSortOrder (get query "sortOrder"))]).
Proof.
  split.
  { intros v Ht Hr. unfold safeSortBy.
    destruct (includes validSortFields (defaulted v (JStr "title"))) eqn:Hi;
      [|done].
    apply includes_validSortFields in Hi.
    destruct v; simpl in *; destruct Hi; congruence. }
  split; [reflexivity|]. split; [reflexivity|].
  split.
  { intros v Hd. unfold safeSortOrder.
    destruct v as [| | | |s| |]; simpl; try done.
    destruct (String.eqb s "desc") eqn:He; [|done].
    apply String.eqb_eq in He. congruence. }
  split; [reflexivity|].
  intros tableName base query parts Hc Hp.
  eexists. split; [by apply listTools_select|]. reflexivity.
Qed.

(** Unknown and absent sort parameters fall back; rating, desc pass. *)
Lemma sort_fallbacks_witness :
  safeSortBy (JStr "price") = JStr "title"
  /\ safeSortBy JUndefined = JStr "title"
  /\ safeSortOrder (JStr "DESC") = "asc"
  /\ safeSortOrder JUndefined = "asc"
  /\ exists p,
       fst (listTools (Some "Tools") memBase
              (<["sortBy" := JStr "rating"]> (<["sortOrder" := JStr "desc"]> ∅)))
       = [Select p]
       /\ sort p = [(JStr "rating", "desc")].
Proof.
  destruct sort_fallbacks as (Hby & _ & _ & Hord & _ & Hsel).
  split; [apply Hby; discriminate|].
  split; [apply Hby; discriminate|].
  split; [apply Hord; discriminate|].
  split; [apply Hord; discriminate|].
  destruct (Hsel (Some "Tools") memBase
              (<["sortBy" := JStr "rating"]> (<["sortOrder" := JStr "desc"]> ∅))
              []) as [p [Hp Hs]]; [reflexivity | reflexivity |].
  exists p. split; [exact Hp | exact Hs].
Defined.

(* ===================================================================== *)
(** ** GET /:id *)
(* ===================================================================== *)

Lemma contains_notFoundMessage (rid : string) :
  contains rid (notFoundMessage rid).
Proof. by exists "Tool with ID '", "' not found". Qed.

Lemma nonempty_notFoundMessage (rid : string) :
  nonempty (notFoundMessage rid) = true.
Proof. reflexivity. Qed.

Lemma isNotFound_reportsUnknown (err : AirtableError) :
  isNotFound err = true <-> reportsUnknown err.
Proof.
  unfold isNotFound, reportsUnknown.
  rewrite orb_true_iff, String.eqb_eq.
  destruct (ae_statusCode err) as [c|]; [|split; intros [?|?]; auto; done].
  rewrite Z.eqb_eq. split; (intros [H|H]; [left | by right]); congruence.
Qed.

Lemma isNotFound_other (err : AirtableError) :
  isNotFound err = false <-> ~ reportsUnknown err.
Proof.
  rewrite <- isNotFound_reportsUnknown. by destruct (isNotFound err).
Qed.

(** C7: the get-by-id handler answers 404, with a message that contains the
    id, exactly when the store was asked and reported the id unknown (an
    error with status code 404 or error code NOT_FOUND); every other store
    failure goes on unchanged and is answered with 500; on success the
    reply is the normalised record under the id of the record the store
    returned.  Against a store that serves records by id, a known id is
    answered 200 with a record whose id is the requested one, an unknown id
    is answered 404, and a failure of the service 500. *)
Theorem getTool_outcomes (tableName : option string) (base : Base)
    (rid : string) :
  configured tableName = true ->
  fst (getTool tableName base rid) = [Find rid]
  /\ (forall err, find base rid = inl err -> reportsUnknown err ->
        snd (getTool tableName base rid)
        = Next (Error (notFoundMessage rid) (Some 404%Z) None)
        /\ reply (snd (getTool tableName base rid))
           = Some (404%Z, BMessage (notFoundMessage rid))
        /\ contains rid (notFoundMessage rid))
  /\ (forall err, find base rid = inl err -> ~ reportsUnknown err ->
        snd (getTool tableName base rid) = Next (StoreError err)
        /\ exists b, reply (snd (getTool tableName base rid))
                     = Some (500%Z, b))
  /\ (forall r, find base rid = inr r ->
        reply (snd (getTool tableName base rid))
        = Some (200%Z, BTool (formatRecord r))
        /\ Tool.id (formatRecord r) = JStr (rec_id r))
  /\ ((exists b, reply (snd (getTool tableName base rid)) = Some (404%Z, b))
      <-> exists err, find base rid = inl err /\ reportsUnknown err)
  /\ (forall other t, down t = None ->
        (forall flds, rows t !! rid = Some flds ->
           exists tool,
             reply (snd (getTool tableName (tableBase other t) rid))
             = Some (200%Z, BTool tool)
             /\ Tool.id tool = JStr rid)
        /\ (rows t !! rid = None ->
            reply (snd (getTool tableName (tableBase other t) rid))
            = Some (404%Z, BMessage (notFoundMessage rid))))
  /\ (forall other t err, down t = Some err -> ~ reportsUnknown err ->
        exists b, reply (snd (getTool tableName (tableBase other t) rid))
                  = Some (500%Z, b)).
Proof.
  intros Hc. unfold getTool. rewrite Hc. simpl.
  split; [done|].
  split.
  { intros err -> Hu. apply isNotFound_reportsUnknown in Hu. rewrite Hu.
    by split; [|split; [|apply contains_notFoundMessage]]. }
  split.
  { intros err -> Hu. apply isNotFound_other in Hu. rewrite Hu.
    split; [done|]. by eexists. }
  split.
  { intros r ->. by split. }
  split.
  { destruct (find base rid) as [err|r] eqn:Hf.
    - destruct (isNotFound err) eqn:Hn.
      + split; [intros _; exists err | intros _; by eexists].
        split; [done|]. by apply isNotFound_reportsUnknown.
      + split.
        * intros [b Hb]. simpl in Hb. discriminate.
        * intros [e [[= <-] He]]. apply isNotFound_reportsUnknown in He.
          congruence.
    - split.
      + intros [b Hb]. simpl in Hb. discriminate.
      + intros [e [? _]]. discriminate. }
  split.
  { intros other t Hd. unfold tableFind. rewrite Hd. split.
    - intros flds ->. by eexists.
    - intros ->. done. }
  intros other t err Hd Hu. apply isNotFound_other in Hu.
  unfold tableFind. rewrite Hd, Hu. by eexists.
Qed.

(** An unknown id is answered 404; a known one comes back under its id. *)
Lemma getTool_outcomes_witness :
  reply (snd (getTool (Some "Tools") (tableBase memBase sampleTable) "rec404"))
  = Some (404%Z, BMessage "Tool with ID 'rec404' not found")
  /\ exists tool,
       reply (snd (getTool (Some "Tools") (tableBase memBase sampleTable)
                     "rec1"))
       = Some (200%Z, BTool tool)
       /\ Tool.id tool = JStr "rec1".
Proof.
  split.
  - destruct (getTool_outcomes (Some "Tools") memBase "rec404")
      as (_ & _ & _ & _ & _ & Htab & _); [reflexivity|].
    destruct (Htab memBase sampleTable) as [_ Hnone]; [reflexivity|].
    apply Hnone. reflexivity.
  - destruct (getTool_outcomes (Some "Tools") memBase "rec1")
      as (_ & _ & _ & _ & _ & Htab & _); [reflexivity|].
    destruct (Htab memBase sampleTable) as [Hsome _]; [reflexivity|].
    apply (Hsome {[ "title" := JStr "Orbit Lab" ]}). reflexivity.
Defined.

(* ===================================================================== *)
(** ** POST /submit: validation *)
(* ===================================================================== *)

Lemma isBlank_textual (v : jsval) :
  textual v = true -> isBlank v = Ok (blankField v).
Proof. by destruct v. Qed.

Lemma isBlank_false (v : jsval) :
  isBlank v = Ok false -> exists s, v = JStr s /\ nonempty (trim s) = true.
Proof.
  destruct v as [| | | |s| |]; try discriminate.
  unfold isBlank; simpl. intros [= H]. exists s. split; [done|].
  by apply negb_false_iff.
Qed.

Lemma isBlank_not_textual (v : jsval) :
  textual v = false -> exists msg, isBlank v = Throw (TypeError msg).
Proof. destruct v; try discriminate; intros _; by eexists. Qed.

Lemma elem_of_flag (b : bool) (k k' : string) :
  k' ∈ flag b k <-> b = true /\ k' = k.
Proof. destruct b; simpl; set_solver. Qed.

Lemma dom_flagged (b : bool) (k msg : string) (errors : gmap string string) :
  dom (if b then <[k := msg]> errors else errors) = flag b k ∪ dom errors.
Proof.
  destruct b; simpl; [by rewrite dom_insert_L | set_solver].
Qed.

Lemma size_flagged_zero (b : bool) (k msg : string)
    (errors : gmap string string) :
  size (if b then <[k := msg]> errors else errors) = 0 ->
  b = false /\ size errors = 0.
Proof.
  destruct b; [|done]. intros H%map_size_empty_inv.
  by apply insert_non_empty in H.
Qed.

Section Submit.

Variable tableName : option string.
Variable URL_ok : string -> bool.
Variable base : Base.
Variable receivedData : gmap string jsval.

Hypothesis table_configured : configured tableName = true.

Lemma dom_url_check (u : jsval) (errors : gmap string string) :
  textual u = true ->
  dom (if blankField u then <["URL" := "Tool URL is required"]> errors
       else match u with
            | JStr s => if URL_ok s then errors
                        else <["URL" := "Invalid URL format"]> errors
            | _ => errors
            end)
  = flag (blankField u || malformedURL URL_ok u) "URL" ∪ dom errors.
Proof.
  destruct u as [| | | |s| |]; try discriminate; intros _; simpl;
    try (rewrite dom_insert_L; reflexivity).
  destruct (nonempty (trim s)); simpl.
  - destruct (URL_ok s); simpl; [set_solver | by rewrite dom_insert_L].
  - by rewrite dom_insert_L.
Qed.

Lemma elem_of_violations (k : string) :
  k ∈ violations URL_ok receivedData
  <-> (k ∈ required /\ blankField (get receivedData k) = true)
      \/ (k = "URL" /\ malformedURL URL_ok (get receivedData "URL") = true).
Proof.
  unfold violations, required.
  rewrite !elem_of_union, !elem_of_flag, orb_true_iff.
  rewrite !elem_of_cons, elem_of_nil.
  split.
  - intros [[[[H ->]|[[H|H] ->]]|[H ->]]|[H ->]]; auto 10.
  - intros [[[->|[->|[->|[->|[]]]]] H]|[-> H]]; auto 10.
Qed.

(** For textual fields, validation ends normally and flags exactly the
    violations. *)
Lemma validate_textual :
  (forall k, k ∈ required -> textual (get receivedData k) = true) ->
  exists errors,
    validate URL_ok receivedData = Ok errors
    /\ dom errors = violations URL_ok receivedData.
Proof.
  intros Ht.
  assert (Hn : textual (get receivedData "Tool Name") = true)
    by (apply Ht; unfold required; set_solver).
  assert (Hu : textual (get receivedData "URL") = true)
    by (apply Ht; unfold required; set_solver).
  assert (Hd : textual (get receivedData "Description") = true)
    by (apply Ht; unfold required; set_solver).
  assert (Hc : textual (get receivedData "Category") = true)
    by (apply Ht; unfold required; set_solver).
  unfold validate.
  rewrite (isBlank_textual _ Hn), (isBlank_textual _ Hu),
    (isBlank_textual _ Hd), (isBlank_textual _ Hc). simpl.
  eexists. split; [reflexivity|].
  rewrite !dom_flagged, (dom_url_check _ _ Hu), dom_flagged, dom_empty_L.
  unfold violations. set_solver.
Qed.

(** A value without a [trim] method under the first required key ends the
    handler with a TypeError, before any reply. *)
Lemma validate_not_textual :
  textual (get receivedData "Tool Name") = false ->
  exists msg, validate URL_ok receivedData = Throw (TypeError msg).
Proof.
  intros H. apply isBlank_not_textual in H as [msg H].
  exists msg. unfold validate. by rewrite H.
Qed.

(** A submission that passes validation has four non-blank strings, and a
    URL the constructor accepts. *)
Lemma validate_passes :
  validate URL_ok receivedData = Ok ∅ ->
  (forall k, k ∈ required ->
     exists s, get receivedData k = JStr s /\ nonempty (trim s) = true)
  /\ (forall s, get receivedData "URL" = JStr s -> URL_ok s = true).
Proof.
  unfold validate.
  destruct (isBlank (get receivedData "Tool Name")) as [b1|] eqn:H1;
    [simpl | discriminate].
  destruct (isBlank (get receivedData "URL")) as [b2|] eqn:H2;
    [simpl | discriminate].
  destruct (isBlank (get receivedData "Description")) as [b3|] eqn:H3;
    [simpl | discriminate].
  destruct (isBlank (get receivedData "Category")) as [b4|] eqn:H4;
    [simpl | discriminate].
  intros [= He].
  assert (Hz := f_equal size He). rewrite map_size_empty in Hz.
  apply size_flagged_zero in Hz as [-> Hz].
  apply size_flagged_zero in Hz as [-> Hz].
  destruct b2.
  { apply map_size_empty_inv in Hz. by apply insert_non_empty in Hz. }
  apply isBlank_false in H2 as [u [Hu Hub]].
  rewrite Hu in Hz.
  destruct (URL_ok u) eqn:Hok.
  2:{ apply map_size_empty_inv in Hz. by apply insert_non_empty in Hz. }
  apply size_flagged_zero in Hz as [-> _].
  apply isBlank_false in H1, H3, H4.
  split.
  - intros k Hk. unfold required in Hk.
    repeat (apply elem_of_cons in Hk as [->|Hk]); eauto.
    by apply elem_of_nil in Hk.
  - intros s Hs. congruence.
Qed.

(* ===================================================================== *)
(** ** POST /submit: the handler *)
(* ===================================================================== *)

(** No store call is made unless validation returned an empty error map. *)
Lemma submitTool_validates_first :
  fst (submitTool tableName URL_ok base receivedData) = []
  \/ validate URL_ok receivedData = Ok ∅.
Proof.
  unfold submitTool. rewrite table_configured. simpl.
  destruct (validate URL_ok receivedData) as [errors|e]; [|by left].
  destruct (size errors) eqn:Hs; simpl; [|by left].
  right. by apply map_size_empty_inv in Hs as ->.
Qed.

Lemma submitTool_invalid (errors : gmap string string) :
  validate URL_ok receivedData = Ok errors ->
  errors <> ∅ ->
  submitTool tableName URL_ok base receivedData
  = ([], Next (Error "Validation failed" (Some 400%Z) (Some errors))).
Proof.
  intros Hv Hne. unfold submitTool. rewrite table_configured, Hv. simpl.
  destruct (size errors) eqn:Hs; [|done].
  by apply map_size_empty_inv in Hs.
Qed.

Lemma submitTool_valid :
  validate URL_ok receivedData = Ok ∅ ->
  submitTool tableName URL_ok base receivedData
  = ([Create [newToolData receivedData]],
     match create base [newToolData receivedData] with
     | inr (r :: _) => Json 201 (BTool (formatRecord r))
     | inr [] =>
         Next (TypeError
           "Cannot read properties of undefined (reading 'fields')")
     | inl err => Next (StoreError err)
     end).
Proof.
  intros Hv. unfold submitTool. by rewrite table_configured, Hv.
Qed.

Lemma submitTool_rejected (e : js_error) :
  validate URL_ok receivedData = Throw e ->
  submitTool tableName URL_ok base receivedData = ([], Rejected e).
Proof.
  intros Hv. unfold submitTool. by rewrite table_configured, Hv.
Qed.

Lemma dom_newToolData :
  dom (newToolData receivedData)
  = {[ "title"; "link"; "description"; "tags" ]}
    ∪ flag (truthy (get receivedData "Image URL")) "thumbnail".
Proof.
  unfold newToolData.
  destruct (truthy (get receivedData "Image URL")); simpl;
    rewrite !dom_insert_L, dom_empty_L; set_solver.
Qed.

Lemma lookup_newToolData :
  newToolData receivedData !! "title" = Some (get receivedData "Tool Name")
  /\ newToolData receivedData !! "link" = Some (get receivedData "URL")
  /\ newToolData receivedData !! "description"
     = Some (get receivedData "Description")
  /\ newToolData receivedData !! "tags" = Some (get receivedData "Category")
  /\ newToolData receivedData !! "thumbnail"
     = (if truthy (get receivedData "Image URL")
        then Some (get receivedData "Image URL") else None).
Proof.
  unfold newToolData.
  destruct (truthy (get receivedData "Image URL")); by simplify_map_eq.
Qed.

(** C8: for a submission that passes validation the handler makes one store
    call, creating one record; its field map has the keys title, link,
    description and tags with the values of Tool Name, URL, Description and
    Category, and the key thumbnail exactly when Image URL holds a (truthy)
    value, then with that value, never undefined, null or empty; and the
    reply to a successful creation is 201 with the created record passed
    through [formatRecord]. *)
Theorem submitTool_creates_one :
  validate URL_ok receivedData = Ok ∅ ->
  fst (submitTool tableName URL_ok base receivedData)
  = [Create [newToolData receivedData]]
  /\ dom (newToolData receivedData)
     = {[ "title"; "link"; "description"; "tags" ]}
       ∪ flag (truthy (get receivedData "Image URL")) "thumbnail"
  /\ newToolData receivedData !! "title" = Some (get receivedData "Tool Name")
  /\ newToolData receivedData !! "link" = Some (get receivedData "URL")
  /\ newToolData receivedData !! "description"
     = Some (get receivedData "Description")
  /\ newToolData receivedData !! "tags" = Some (get receivedData "Category")
  /\ (get receivedData "Image URL" = JUndefined ->
      newToolData receivedData !! "thumbnail" = None)
  /\ (forall v, newToolData receivedData !! "thumbnail" = Some v ->
        v = get receivedData "Image URL"
        /\ v <> JUndefined /\ v <> JNull /\ v <> JStr "")
  /\ (forall r rest, create base [newToolData receivedData] = inr (r :: rest) ->
        snd (submitTool tableName URL_ok base receivedData)
        = Json 201 (BTool (formatRecord r))).
Proof.
  intros Hv.
  destruct lookup_newToolData as (Ht & Hl & Hd & Hg & Hth).
  rewrite (submitTool_valid Hv). simpl.
  split; [done|]. split; [apply dom_newToolData|].
  do 4 (split; [done|]).
  split; [intros Hi; rewrite Hth, Hi; done|].
  split.
  - intros v. rewrite Hth.
    destruct (truthy (get receivedData "Image URL")) eqn:Hi; [|done].
    intros [= <-]. split; [done|]. repeat split; intros E; by rewrite E in Hi.
  - by intros r rest ->.
Qed.

(** C3, as the code has it: for a submission whose required fields are
    strings or absent, validation ends before any store call with an error
    map whose keys are exactly the required fields that are missing or
    blank after trimming, plus URL when it is not blank but not a
    well-formed URL.  If that map is not empty the handler passes on a
    'Validation failed' error with status 400 and the map as details and
    makes no store call.  With exactly two required fields missing or
    blank and no malformed URL, the details have exactly those two keys. *)
Theorem submitTool_validation :
  (forall k, k ∈ required -> textual (get receivedData k) = true) ->
  exists errors,
    validate URL_ok receivedData = Ok errors
    /\ (forall k, k ∈ dom errors
          <-> (k ∈ required /\ blankField (get receivedData k) = true)
              \/ (k = "URL"
                  /\ malformedURL URL_ok (get receivedData "URL") = true))
    /\ (errors <> ∅ ->
        submitTool tableName URL_ok base receivedData
        = ([], Next (Error "Validation failed" (Some 400%Z) (Some errors))))
    /\ (forall a b,
          a ∈ required -> b ∈ required -> a <> b ->
          (forall k, k ∈ required ->
             blankField (get receivedData k) = true <-> k = a \/ k = b) ->
          malformedURL URL_ok (get receivedData "URL") = false ->
          dom errors = {[ a; b ]}
          /\ submitTool tableName URL_ok base receivedData
             = ([], Next (Error "Validation failed" (Some 400%Z)
                            (Some errors)))).
Proof.
  intros Ht.
  destruct (validate_textual Ht) as [errors [Hv Hdom]].
  exists errors. split; [done|].
  assert (Hkeys : forall k, k ∈ dom errors
            <-> (k ∈ required /\ blankField (get receivedData k) = true)
                \/ (k = "URL"
                    /\ malformedURL URL_ok (get receivedData "URL") = true)).
  { intros k. rewrite Hdom. apply elem_of_violations. }
  split; [done|].
  split; [by apply submitTool_invalid|].
  intros a b Ha Hb Hab Hblank Hm.
  assert (Hab2 : dom errors = {[ a; b ]}).
  { apply set_eq. intros k. rewrite Hkeys, Hm.
    rewrite elem_of_union, !elem_of_singleton. split.
    - intros [[Hk Hbk]|[_ ?]]; [|done]. by apply Hblank.
    - intros Hk. left.
      assert (k ∈ required) by (by destruct Hk as [->| ->]).
      split; [done|]. by apply Hblank. }
  split; [done|].
  apply submitTool_invalid; [done|].
  intros ->. rewrite dom_empty_L in Hab2.
  assert (a ∈ (∅ : gset string)) by (rewrite Hab2; set_solver).
  set_solver.
Qed.

End Submit.

(** A complete submission without image: one row, four keys. *)
Lemma submitTool_creates_one_witness :
  fst (submitTool (Some "Tools") URL_scheme memBase sampleSubmission)
  = [Create [newToolData sampleSubmission]]
  /\ dom (newToolData sampleSubmission)
     = {[ "title"; "link"; "description"; "tags" ]} ∪ flag false "thumbnail".
Proof.
  destruct (submitTool_creates_one (Some "Tools") URL_scheme memBase
              sampleSubmission) as (Hcall & Hdom & _);
    [reflexivity | vm_compute; reflexivity |].
  split; [exact Hcall | exact Hdom].
Defined.

(** Description blank, Category missing: details with those two keys. *)
Lemma submitTool_validation_witness :
  exists errors,
    dom errors = {[ "Description"; "Category" ]}
    /\ submitTool (Some "Tools") URL_scheme memBase blankSubmission
       = ([], Next (Error "Validation failed" (Some 400%Z) (Some errors))).
Proof.
  destruct (submitTool_validation (Some "Tools") URL_scheme memBase
              blankSubmission)
    as (errors & _ & _ & _ & Htwo).
  - reflexivity.
  - intros k Hk. unfold required in Hk.
    repeat (apply elem_of_cons in Hk as [->|Hk]); try reflexivity.
    by apply elem_of_nil in Hk.
  - exists errors. apply (Htwo "Description" "Category").
    + unfold required. set_solver.
    + unfold required. set_solver.
    + discriminate.
    + intros k Hk. unfold required in Hk.
      repeat (apply elem_of_cons in Hk as [->|Hk]);
        try (by apply elem_of_nil in Hk);
        vm_compute; split; intros H; try discriminate;
        try (destruct H as [H|H]; discriminate); auto.
    + reflexivity.
Defined.

(** C3, refuted as stated: Tool Name and Description are the two missing
    fields, URL and Category are present and not blank, and the details
    carry three keys, because the URL does not parse. *)
Lemma submitTool_details_extra_key :
  blankField (get malformedSubmission "Tool Name") = true
  /\ blankField (get malformedSubmission "Description") = true
  /\ blankField (get malformedSubmission "URL") = false
  /\ blankField (get malformedSubmission "Category") = false
  /\ exists errors,
       submitTool (Some "Tools") URL_scheme memBase malformedSubmission
       = ([], Next (Error "Validation failed" (Some 400%Z) (Some errors)))
       /\ dom errors = {[ "Tool Name"; "URL"; "Description" ]}
       /\ dom errors <> {[ "Tool Name"; "Description" ]}.
Proof.
  do 4 (split; [reflexivity|]).
  exists (<["Description" := "Description is required"]>
            (<["URL" := "Invalid URL format"]>
               (<["Tool Name" := "Tool Name is required"]>
                  (∅ : gmap string string)))).
  split; [reflexivity|].
  assert (Hd : dom (<["Description" := "Description is required"]>
                 (<["URL" := "Invalid URL format"]>
                    (<["Tool Name" := "Tool Name is required"]>
                       (∅ : gmap string string))))
               = {[ "Tool Name"; "URL"; "Description" ]}).
  { rewrite !dom_insert_L, dom_empty_L. set_solver. }
  split; [exact Hd|].
  rewrite Hd. intros E.
  assert (H : "URL" ∈ ({[ "Tool Name"; "Description" ]} : gset string)).
  { rewrite <- E. set_solver. }
  set_solver.
Qed.

(** A Tool Name that is an array has no [trim]: the handler ends in a
    TypeError, with no store call and no reply. *)
Example submitTool_array_name :
  submitTool (Some "Tools") URL_scheme memBase
    (<["Tool Name" := JArr [JStr "Orbit Lab"]]> sampleSubmission)
  = ([], Rejected (TypeError "receivedData[...]?.trim is not a function"))
  /\ reply (Rejected (TypeError "receivedData[...]?.trim is not a function"))
     = None.
Proof. split; reflexivity. Qed.

(* ===================================================================== *)
(** ** HomePage: typing, debounce, fetch *)
(* ===================================================================== *)

Import HomePage.

Lemma last_cons {A : Type} (a d : A) (l : list A) :
  List.last (a :: l) d = List.last l a.
Proof.
  revert a d. induction l as [|b l IH]; intros a d; [done|].
  change (List.last (a :: b :: l) d) with (List.last (b :: l) d).
  by rewrite !IH.
Qed.

Lemma run_app (s : state) (es fs : list event) :
  run s (es ++ fs) = run (run s es) fs.
Proof. apply fold_left_app. Qed.

(** A keystroke changes the visible text and the pending call only. *)
Lemma keystroke_no_fetch (text : string) (s : state) :
  fetched (step s (Keystroke text)) = fetched s
  /\ searchTerm (step s (Keystroke text)) = searchTerm s
  /\ pending (step s (Keystroke text))
     = Some (text, now (step s (Keystroke text))).
Proof. done. Qed.

(** While keystrokes follow each other in less than [wait], the debounced
    setter never runs: only the pending text moves on. *)
Lemma run_later (ks : list (nat * string)) :
  forall (s : state) (v : string),
    pending s = Some (v, now s) ->
    rapid ks ->
    pending (run s (later ks))
    = Some (List.last (List.map snd ks) v, now (run s (later ks)))
    /\ searchTerm (run s (later ks)) = searchTerm s
    /\ selectedCategories (run s (later ks)) = selectedCategories s
    /\ sortValue (run s (later ks)) = sortValue s
    /\ fetched (run s (later ks)) = fetched s.
Proof.
  induction ks as [|[g k] ks IH]; intros s v Hp Hr; [done|].
  apply Forall_cons in Hr as [Hg Hr]. simpl in Hg.
  assert (Hq : elapse g s
               = {| inputValue := inputValue s; searchTerm := searchTerm s;
                    selectedCategories := selectedCategories s;
                    sortValue := sortValue s; pending := pending s;
                    now := now s + g; fetched := fetched s |}).
  { unfold elapse. rewrite Hp.
    replace (now s + g - now s) with g by lia.
    destruct (wait <=? g)%nat eqn:E; [|done].
    apply Nat.leb_le in E. lia. }
  change (run s (later ((g, k) :: ks)))
    with (run (handleSearchInputChange k (elapse g s)) (later ks)).
  rewrite Hq.
  destruct (IH (handleSearchInputChange k
                  {| inputValue := inputValue s; searchTerm := searchTerm s;
                     selectedCategories := selectedCategories s;
                     sortValue := sortValue s; pending := pending s;
                     now := now s + g; fetched := fetched s |}) k)
    as (H1 & H2 & H3 & H4 & H5); [done | done |].
  simpl List.map. rewrite last_cons. by rewrite H1, H2, H3, H4, H5.
Qed.

(** After a quiet period of at least [wait] the pending text is handed to
    [setSearchTerm]. *)
Lemma elapse_fires (d : nat) (s : state) (v : string) :
  pending s = Some (v, now s) ->
  wait <= d ->
  elapse d s
  = setSearchTerm v
      {| inputValue := inputValue s; searchTerm := searchTerm s;
         selectedCategories := selectedCategories s;
         sortValue := sortValue s; pending := None; now := now s + d;
         fetched := fetched s |}.
Proof.
  intros Hp Hd. unfold elapse. rewrite Hp.
  replace (now s + d - now s) with d by lia.
  destruct (wait <=? d)%nat eqn:E; [done|].
  apply Nat.leb_gt in E. lia.
Qed.

(** C9, as the code has it: a burst of keystrokes, each less than 400 after
    its predecessor, followed by a pause of at least 400, triggers no fetch
    while it lasts and at most one fetch at its end.  When the final text
    differs from the search term in effect before the burst there is exactly
    one fetch, with the final text as [search] (no [search] parameter if the
    final text is empty) and the category and sort of the current state;
    when the final text equals that term there is none.  A keystroke by
    itself never triggers a fetch. *)
Theorem typing_fetches (s : state) (first : string)
    (ks : list (nat * string)) (d : nat) :
  rapid ks ->
  wait <= d ->
  (forall text s0, fetched (step s0 (Keystroke text)) = fetched s0)
  /\ fetched (run s (Keystroke first :: later ks)) = fetched s
  /\ searchTerm (run s (typing first ks d)) = finalText first ks
  /\ (finalText first ks = searchTerm s ->
      fetched (run s (typing first ks d)) = fetched s)
  /\ (finalText first ks <> searchTerm s ->
      exists p,
        fetched (run s (typing first ks d)) = fetched s ++ [p]
        /\ search p = (if nonempty (finalText first ks)
                       then Some (finalText first ks) else None)
        /\ category p = category (fetchParams s)
        /\ sortBy p = sortBy (fetchParams s)
        /\ sortOrder p = sortOrder (fetchParams s)).
Proof.
  intros Hr Hd.
  split; [done|].
  destruct (run_later ks (handleSearchInputChange first s) first)
    as (Hp & Ht & Hc & Hs & Hf); [done | done |].
  change (run s (Keystroke first :: later ks))
    with (run (handleSearchInputChange first s) (later ks)).
  split; [done|].
  unfold typing.
  change (run s (Keystroke first :: later ks ++ [Elapse d]))
    with (run (handleSearchInputChange first s) (later ks ++ [Elapse d])).
  rewrite run_app.
  change (run ?x [Elapse d]) with (elapse d x).
  rewrite (elapse_fires d _ _ Hp Hd).
  rewrite Ht, Hc, Hs, Hf. simpl searchTerm. simpl fetched.
  fold (finalText first ks).
  unfold setSearchTerm. simpl searchTerm.
  destruct (String.eqb (finalText first ks) (searchTerm s)) eqn:E.
  - apply String.eqb_eq in E. simpl.
    split; [done|]. split; [done|]. intros Hne. by destruct Hne.
  - apply String.eqb_neq in E. simpl.
    split; [done|]. split; [intros He; by destruct E|].
    intros _. eexists. split; [reflexivity|].
    unfold fetchParams; simpl.
    split; [|done].
    by destruct (finalText first ks).
Qed.

(** Three keystrokes and a pause: one fetch, for the last text. *)
Lemma typing_fetches_witness :
  exists p,
    fetched (run mounted (typing "v" [(120, "vr"); (90, "vr ")] 400))
    = fetched mounted ++ [p]
    /\ search p = Some "vr ".
Proof.
  destruct (typing_fetches mounted "v" [(120, "vr"); (90, "vr ")] 400)
    as (_ & _ & _ & _ & Hone).
  - repeat constructor.
  - unfold wait. lia.
  - destruct Hone as (p & Hp & Hsearch & _); [discriminate|].
    exists p. split; [exact Hp | exact Hsearch].
Defined.

(** C9, refuted as stated: with the term vr in effect, typing one more
    letter and deleting it again within the debounce interval, then pausing,
    issues no fetch at all. *)
Lemma typing_and_deleting_no_fetch :
  searchTerm settledOnVr = "vr"
  /\ rapid [(100, "vr")]
  /\ wait < 500
  /\ finalText "vrx" [(100, "vr")] = "vr"
  /\ fetched (run settledOnVr (typing "vrx" [(100, "vr")] 500))
     = fetched settledOnVr
  /\ ~ exists p,
         fetched (run settledOnVr (typing "vrx" [(100, "vr")] 500))
         = fetched settledOnVr ++ [p].
Proof.
  split; [reflexivity|].
  split; [repeat constructor|].
  split; [unfold wait; lia|].
  split; [reflexivity|].
  split; [reflexivity|].
  intros [p Hp]. vm_compute in Hp. discriminate.
Qed.

(* ===================================================================== *)
(** ** Further properties of the backend routes *)
(* ===================================================================== *)

Lemma errorHandler_general (NODE_ENV : option string)
    (stack : js_error -> string) (err : js_error) :
  errorHandler err
  = match generalErrorHandler NODE_ENV stack err with
    | Answered r => (er_status r, BMessage (er_message r))
    | Refused _ => (500%Z, BErrorPage)
    end.
Proof.
  unfold errorHandler, generalErrorHandler.
  by destruct (validStatus (statusOrDefault err)).
Qed.

(** X1: without a table name (unset or empty) each of the three handlers
    hands a configuration error to the error handler before looking at the
    request and without any store call, and the client is answered 500
    with the configuration message. *)
Theorem unconfigured_fails_fast (tableName : option string)
    (URL_ok : string -> bool) (base : Base)
    (query receivedData : gmap string jsval) (rid : string)
    (NODE_ENV : option string) (stack : js_error -> string) :
  configured tableName = false ->
  (exists e r, listTools tableName base query = ([], Next e)
     /\ generalErrorHandler NODE_ENV stack e = Answered r
     /\ er_status r = 500%Z
     /\ er_message r = "Airtable table name not configured.")
  /\ (exists e r, getTool tableName base rid = ([], Next e)
        /\ generalErrorHandler NODE_ENV stack e = Answered r
        /\ er_status r = 500%Z
        /\ er_message r = "Airtable table name not configured.")
  /\ (exists e r,
        submitTool tableName URL_ok base receivedData = ([], Next e)
        /\ generalErrorHandler NODE_ENV stack e = Answered r
        /\ er_status r = 500%Z
        /\ er_message r = "Airtable table name is not configured.").
Proof.
  intros Hc. unfold listTools, getTool, submitTool. rewrite Hc. simpl.
  split; [|split]; eexists _, _;
    (split; [reflexivity|]); (split; [reflexivity|]); done.
Qed.

(** An empty table name counts as missing, even for a malformed query. *)
Lemma unconfigured_fails_fast_witness :
  exists e r,
    listTools (Some "") memBase {[ "search" := JArr [JStr "a"; JStr "b"] ]}
    = ([], Next e)
    /\ generalErrorHandler None (fun _ => "") e = Answered r
    /\ er_status r = 500%Z.
Proof.
  destruct (unconfigured_fails_fast (Some "") URL_scheme memBase
              {[ "search" := JArr [JStr "a"; JStr "b"] ]} ∅ "rec1"
              None (fun _ => "")) as [(e & r & He & Hr & Hs & _) _];
    [reflexivity|].
  exists e, r. split; [exact He|]. split; [exact Hr | exact Hs].
Defined.

(** Either side of a "throws exactly when" statement, after case analysis
    on the value. *)
Ltac throws_cases :=
  split;
  [ intros [e He]; first [discriminate | split; [done | discriminate]]
  | intros [Ht Hs]; first [discriminate | by eexists
                          | exfalso; by eapply Hs ] ].

Lemma searchPart_throws (v : jsval) :
  (exists e, searchPart v = Throw e)
  <-> truthy v = true /\ (forall s, v <> JStr s).
Proof.
  unfold searchPart. destruct v as [| |b|q|s|l|l]; simpl;
    try destruct b; try destruct (negb (Qnum q =? 0)%Z);
    try destruct (nonempty s); throws_cases.
Qed.

Lemma categoryPart_throws (v : jsval) :
  (exists e, categoryPart v = Throw e)
  <-> truthy v = true /\ (forall s, v <> JStr s).
Proof.
  unfold categoryPart. destruct v as [| |b|q|s|l|l]; simpl;
    try destruct b; try destruct (negb (Qnum q =? 0)%Z);
    try destruct (nonempty s);
    try destruct (0 <? length (categoryList s))%nat; throws_cases.
Qed.

(** X2: the list handler ends in an exception that escapes it, before any
    store call, exactly when [search] or [category] holds a value that is
    truthy but not a string, such as the array a repeated query parameter
    produces. *)
Theorem listTools_rejected_iff (tableName : option string) (base : Base)
    (query : gmap string jsval) :
  configured tableName = true ->
  ((exists e, snd (listTools tableName base query) = Rejected e)
   <-> (truthy (get query "search") = true
        /\ forall s, get query "search" <> JStr s)
       \/ (truthy (get query "category") = true
           /\ forall s, get query "category" <> JStr s))
  /\ (forall e, snd (listTools tableName base query) = Rejected e ->
        fst (listTools tableName base query) = []).
Proof.
  intros Hc. unfold listTools, formulaParts. rewrite Hc. simpl.
  rewrite <- searchPart_throws, <- categoryPart_throws.
  destruct (searchPart (get query "search")) as [sp|e1] eqn:Hs; simpl.
  - destruct (categoryPart (get query "category")) as [cp|e2] eqn:Hg; simpl.
    + split.
      * split.
        -- intros [e He].
           destruct (select_all base _); discriminate.
        -- intros [[e He]|[e He]]; discriminate.
      * intros e He. destruct (select_all base _); discriminate.
    + split; [|by intros e _].
      split; [intros _; right; by eexists | intros _; by eexists].
  - split; [|by intros e _].
    split; [intros _; left; by eexists | intros _; by eexists].
Qed.

(** A repeated [search] parameter arrives as an array. *)
Lemma listTools_rejected_iff_witness :
  exists e,
    snd (listTools (Some "Tools") memBase
           {[ "search" := JArr [JStr "moon"; JStr "mars"] ]})
    = Rejected e.
Proof.
  destruct (listTools_rejected_iff (Some "Tools") memBase
              {[ "search" := JArr [JStr "moon"; JStr "mars"] ]})
    as [Hiff _]; [reflexivity|].
  apply Hiff. left. split; [reflexivity | discriminate].
Defined.

(** X3: when the store answers a list query, the reply is 200 with one
    normalised tool per returned record, in the store's order, each under
    the id of its record. *)
Theorem listTools_success (tableName : option string) (base : Base)
    (query : gmap string jsval) (parts : list string)
    (records : list record) :
  configured tableName = true ->
  formulaParts (get query "search") (get query "category") = Ok parts ->
  select_all base (selectOf query parts) = inr records ->
  exists tools,
    reply (snd (listTools tableName base query)) = Some (200%Z, BTools tools)
    /\ length tools = length records
    /\ List.map Tool.id tools
       = List.map (fun r => JStr (rec_id r)) records
    /\ forall i r, records !! i = Some r -> tools !! i = Some (formatRecord r).
Proof.
  intros Hc Hp Hs. unfold listTools. rewrite Hc, Hp. simpl. rewrite Hs.
  exists (List.map formatRecord records). split; [done|].
  split; [apply List.length_map|].
  split; [by rewrite List.map_map|].
  intros i r Hi. change (List.map formatRecord records)
    with (formatRecord <$> records).
  by rewrite list_lookup_fmap, Hi.
Qed.

(** A store that holds two records. *)
Lemma listTools_success_witness :
  exists tools,
    reply (snd (listTools (Some "Tools") twoRecordBase ∅))
    = Some (200%Z, BTools tools)
    /\ length tools = 2.
Proof.
  destruct (listTools_success (Some "Tools") twoRecordBase ∅ []
              [mkRecord "recA" {[ "title" := JStr "Atlas" ]};
               mkRecord "recB" ∅])
    as (tools & Hr & Hl & _); [reflexivity | reflexivity | reflexivity |].
  exists tools. split; [exact Hr | exact Hl].
Defined.

(** X4: a store failure is passed on unchanged by all three handlers
    (for get-by-id unless it is the not-found case) and answered with status
    500 and the store's own message, whatever status code the store error
    carried; an empty message is replaced by the default text. *)
Theorem store_failure_is_500 (tableName : option string)
    (URL_ok : string -> bool) (base : Base) (err : AirtableError)
    (NODE_ENV : option string) (stack : js_error -> string) :
  configured tableName = true ->
  (forall query parts,
     formulaParts (get query "search") (get query "category") = Ok parts ->
     select_all base (selectOf query parts) = inl err ->
     snd (listTools tableName base query) = Next (StoreError err))
  /\ (forall rid, find base rid = inl err -> isNotFound err = false ->
        snd (getTool tableName base rid) = Next (StoreError err))
  /\ (forall receivedData,
        validate URL_ok receivedData = Ok ∅ ->
        create base [newToolData receivedData] = inl err ->
        snd (submitTool tableName URL_ok base receivedData)
        = Next (StoreError err))
  /\ exists r,
       generalErrorHandler NODE_ENV stack (StoreError err) = Answered r
       /\ er_status r = 500%Z
       /\ er_message r
          = (if nonempty (ae_message err) then ae_message err
             else "An unexpected error occurred on the server.").
Proof.
  intros Hc. split; [|split; [|split]];
    try (eexists; split; [reflexivity|]; split; reflexivity).
  - intros query parts Hp Hs. unfold listTools. rewrite Hc, Hp. simpl.
    by rewrite Hs.
  - intros rid Hf Hn. unfold getTool. rewrite Hc. simpl. by rewrite Hf, Hn.
  - intros receivedData Hv Hs. rewrite (submitTool_valid _ _ _ _ Hc Hv).
    simpl. by rewrite Hs.
Qed.

(** A rate-limited store: the 429 of the store becomes a 500. *)
Lemma store_failure_is_500_witness :
  snd (listTools (Some "Tools") busyBase ∅)
  = Next (StoreError {| ae_error := "RATE_LIMIT";
                        ae_message := "Too many requests";
                        ae_statusCode := Some 429%Z |}).
Proof.
  destruct (store_failure_is_500 (Some "Tools") URL_scheme busyBase
              {| ae_error := "RATE_LIMIT"; ae_message := "Too many requests";
                 ae_statusCode := Some 429%Z |} None (fun _ => ""))
    as (Hlist & _); [reflexivity|].
  apply (Hlist ∅ []); reflexivity.
Defined.

(** X5: the normalised record depends on the record's id and on the seven
    projected fields only, so the projection asked of the store loses
    nothing that [formatRecord] reads. *)
Theorem formatRecord_reads_projection (r1 r2 : record) :
  rec_id r1 = rec_id r2 ->
  (forall k, In k fieldsToSelect ->
     get (rec_fields r1) k = get (rec_fields r2) k) ->
  formatRecord r1 = formatRecord r2.
Proof.
  intros Hid Hk. unfold formatRecord. rewrite Hid.
  rewrite !Hk; [done|..]; unfold fieldsToSelect; simpl; tauto.
Qed.

(** A field outside the projection does not show. *)
Lemma formatRecord_reads_projection_witness :
  formatRecord (mkRecord "rec1" (<["notes" := JStr "internal"]>
                                   {[ "title" := JStr "Orbit Lab" ]}))
  = formatRecord (mkRecord "rec1" {[ "title" := JStr "Orbit Lab" ]}).
Proof.
  apply formatRecord_reads_projection; [reflexivity|].
  intros k Hk. unfold fieldsToSelect in Hk. simpl in Hk.
  unfold mkRecord; simpl. rewrite get_insert. destruct (decide ("notes" = k)) as [<-|]; [|done].
  exfalso. repeat (destruct Hk as [Hk|Hk]; [discriminate|]). done.
Defined.

(** X6: a truthy stored value (a non-empty string, a non-zero number, an
    array) comes out of [formatRecord] unchanged under its output name, and
    the short description always equals the description. *)
Theorem formatRecord_keeps_truthy (r : record) :
  (truthy (get (rec_fields r) "title") = true ->
   Tool.name (formatRecord r) = get (rec_fields r) "title")
  /\ (truthy (get (rec_fields r) "description") = true ->
      Tool.description (formatRecord r) = get (rec_fields r) "description")
  /\ (truthy (get (rec_fields r) "link") = true ->
      Tool.url (formatRecord r) = get (rec_fields r) "link")
  /\ (truthy (get (rec_fields r) "tags") = true ->
      Tool.category (formatRecord r) = get (rec_fields r) "tags")
  /\ (truthy (get (rec_fields r) "rating") = true ->
      Tool.rating (formatRecord r) = get (rec_fields r) "rating")
  /\ (truthy (get (rec_fields r) "thumbnail") = true ->
      Tool.imageUrl (formatRecord r) = get (rec_fields r) "thumbnail")
  /\ (truthy (get (rec_fields r) "author") = true ->
      Tool.author (formatRecord r) = get (rec_fields r) "author")
  /\ Tool.shortDescription (formatRecord r) = Tool.description (formatRecord r).
Proof.
  unfold formatRecord; simpl.
  repeat split; intros H; by apply js_or_truthy.
Qed.

Lemma formatRecord_keeps_truthy_witness :
  Tool.rating (formatRecord (mkRecord "rec1" {[ "rating" := JNum 4.5 ]}))
  = JNum 4.5.
Proof.
  destruct (formatRecord_keeps_truthy
              (mkRecord "rec1" {[ "rating" := JNum 4.5 ]}))
    as (_ & _ & _ & _ & Hr & _).
  apply Hr. reflexivity.
Defined.

(* ===================================================================== *)
(** ** Splitting, trimming and escaping *)
(* ===================================================================== *)

Lemma split_not_nil (sep : ascii) (s : string) : split sep s <> [].
Proof.
  induction s as [|c r IH]; simpl; [done|].
  destruct (Ascii.eqb c sep); [done|]. by destruct (split sep r).
Qed.

Lemma length_split (sep : ascii) (s : string) :
  length (split sep s) = S (countChar sep s).
Proof.
  induction s as [|c r IH]; simpl; [done|].
  destruct (Ascii.eqb c sep); simpl; [by rewrite IH|].
  destruct (split sep r) eqn:E; [by apply split_not_nil in E|].
  by rewrite <- IH.
Qed.

Lemma split_lacks_sep (sep : ascii) (s : string) :
  Forall (fun seg => hasChar sep seg = false) (split sep s).
Proof.
  induction s as [|c r IH]; simpl; [by constructor|].
  destruct (Ascii.eqb c sep) eqn:E; [by constructor|].
  destruct (split sep r) as [|seg segs]; [by repeat constructor; simpl; rewrite E|].
  inversion IH; subst. constructor; [|done]. simpl. by rewrite E.
Qed.

Lemma hasChar_escapeQuotes (x : ascii) (s : string) :
  x <> quote -> x <> backslash ->
  hasChar x (escapeQuotes s) = hasChar x s.
Proof.
  intros Hq Hb.
  assert (Hb' : Ascii.eqb backslash x = false)
    by (apply Ascii.eqb_neq; congruence).
  assert (Hq' : Ascii.eqb quote x = false)
    by (apply Ascii.eqb_neq; congruence).
  induction s as [|c r IH]; [done|].
  change (escapeQuotes (String c r))
    with (if Ascii.eqb c quote
          then String backslash (String quote (escapeQuotes r))
          else String c (escapeQuotes r)).
  destruct (Ascii.eqb c quote) eqn:E.
  - apply Ascii.eqb_eq in E as ->.
    change (hasChar x (String backslash (String quote (escapeQuotes r))))
      with (Ascii.eqb backslash x
            || (Ascii.eqb quote x || hasChar x (escapeQuotes r))).
    change (hasChar x (String quote r))
      with (Ascii.eqb quote x || hasChar x r).
    by rewrite Hb', Hq', IH.
  - simpl. by rewrite IH.
Qed.

Lemma trimStart_empty (s : string) :
  trimStart s = "" <-> allChars is_ws s = true.
Proof.
  induction s as [|c r IH]; simpl; [done|].
  destruct (is_ws c); simpl; [done|]. split; discriminate.
Qed.

Lemma trimEnd_empty (s : string) :
  trimEnd s = "" <-> allChars is_ws s = true.
Proof.
  induction s as [|c r IH]; simpl; [done|].
  destruct (trimEnd r) as [|c' r'] eqn:E.
  - destruct (is_ws c); simpl; [tauto|]. split; discriminate.
  - rewrite andb_true_iff. split; [discriminate|].
    intros [_ H]. apply IH in H. discriminate.
Qed.

Lemma trimStart_head (s : string) :
  match firstChar (trimStart s) with
  | Some c => is_ws c = false
  | None => True
  end.
Proof.
  induction s as [|c r IH]; simpl; [done|].
  destruct (is_ws c) eqn:E; [done|]. simpl. done.
Qed.

Lemma trim_empty (s : string) : trim s = "" <-> allChars is_ws s = true.
Proof.
  unfold trim. rewrite trimEnd_empty, <- (trimStart_empty s).
  pose proof (trimStart_head s) as Hh.
  destruct (trimStart s) as [|c r]; simpl in *; [by split|].
  rewrite Hh. simpl. split; discriminate.
Qed.

Lemma split_all_ws (s : string) :
  Forall (fun seg => allChars is_ws seg = true) (split comma s)
  <-> allChars is_ws_or_comma s = true.
Proof.
  induction s as [|c r IH]; simpl.
  - split; [done | by repeat constructor].
  - unfold is_ws_or_comma at 1.
    destruct (Ascii.eqb c comma) eqn:E.
    + rewrite orb_true_r. simpl. rewrite <- IH. split.
      * by inversion 1.
      * by constructor.
    + rewrite orb_false_r, andb_true_iff, <- IH.
      destruct (split comma r) as [|seg segs] eqn:Es;
        [by apply split_not_nil in Es|].
      split.
      * inversion 1 as [|? ? H1 H2]; subst. simpl in H1.
        apply andb_true_iff in H1 as [? ?]. split; [done | by constructor].
      * intros [Hc H]. inversion H; subst.
        constructor; [simpl; by apply andb_true_iff | done].
Qed.

Lemma categoryList_nil_iff (c : string) :
  categoryList c = [] <-> allChars is_ws_or_comma c = true.
Proof.
  rewrite <- split_all_ws. unfold categoryList.
  induction (split comma c) as [|seg segs IH]; simpl.
  - split; [by constructor | done].
  - rewrite nonempty_escapeQuotes.
    destruct (nonempty (trim seg)) eqn:E.
    + split; [discriminate|]. inversion 1 as [|? ? H1 _]; subst.
      apply trim_empty in H1. by rewrite H1 in E.
    + rewrite IH. split.
      * intros H. constructor; [|done]. apply trim_empty.
        by destruct (trim seg).
      * by inversion 1.
Qed.

(** X8: a category string yields no term at all exactly when it consists of
    commas and white space only (the empty string included). *)
Theorem categoryList_empty_iff (c : string) :
  categoryList c = [] <-> allChars is_ws_or_comma c = true.
Proof.
  split; intros H; by apply categoryList_nil_iff.
Qed.

Lemma trimEnd_head (s : string) (c : ascii) :
  firstChar s = Some c -> is_ws c = false ->
  firstChar (trimEnd s) = Some c.
Proof.
  destruct s as [|c' r]; simpl; [done|]. intros [= ->] Hc.
  destruct (trimEnd r); [by rewrite Hc | done].
Qed.

Lemma trimEnd_last (s : string) :
  match lastChar (trimEnd s) with
  | Some c => is_ws c = false
  | None => True
  end.
Proof.
  induction s as [|c r IH]; simpl; [done|].
  destruct (trimEnd r) as [|c' r'] eqn:E.
  - destruct (is_ws c) eqn:Ec; simpl; done.
  - simpl in *. done.
Qed.

Lemma firstChar_escapeQuotes (s : string) (c : ascii) :
  firstChar (escapeQuotes s) = Some c ->
  c = backslash \/ firstChar s = Some c.
Proof.
  destruct s as [|c' r]; simpl; [done|].
  destruct (Ascii.eqb c' quote); simpl; intros [= <-]; auto.
Qed.

Lemma lastChar_escapeQuotes (s : string) :
  lastChar (escapeQuotes s) = lastChar s.
Proof.
  induction s as [|c r IH]; simpl; [done|].
  destruct (Ascii.eqb c quote) eqn:E.
  - apply Ascii.eqb_eq in E as ->.
    destruct r as [|c' r']; simpl in *; [done|].
    destruct (Ascii.eqb c' quote); simpl in *; rewrite <- IH; done.
  - destruct r as [|c' r']; simpl in *; [done|].
    destruct (Ascii.eqb c' quote); simpl in *; rewrite <- IH; done.
Qed.

Lemma firstChar_escaped (s : string) (a : ascii) :
  firstChar s = Some a ->
  firstChar (escapeQuotes s)
  = Some (if Ascii.eqb a quote then backslash else a).
Proof.
  destruct s as [|c r]; simpl; [done|]. intros [= ->].
  by destruct (Ascii.eqb a quote).
Qed.

Lemma lastChar_nonempty (s : string) :
  nonempty s = true -> exists z, lastChar s = Some z.
Proof.
  induction s as [|c [|c' r] IH]; [done | by eexists |].
  intros _. destruct IH as [z Hz]; [done|]. exists z. exact Hz.
Qed.

(** A non-empty trimmed string starts and ends with something else than
    white space. *)
Lemma trim_ends (s : string) :
  nonempty (trim s) = true ->
  (exists a, firstChar (trim s) = Some a /\ is_ws a = false)
  /\ (exists z, lastChar (trim s) = Some z /\ is_ws z = false).
Proof.
  intros Hn. split.
  - unfold trim in *. pose proof (trimStart_head s) as Hh.
    destruct (trimStart s) as [|a r] eqn:E; [done|]. simpl in Hh.
    exists a. split; [|done]. by apply trimEnd_head.
  - destruct (lastChar_nonempty _ Hn) as [z Hz]. exists z. split; [done|].
    pose proof (trimEnd_last (trimStart s)) as Hl.
    unfold trim in Hz. by rewrite Hz in Hl.
Qed.

Lemma is_ws_backslash : is_ws backslash = false.
Proof. reflexivity. Qed.

(** X7: every term derived from a category string is non-empty, contains no
    comma, and neither starts nor ends with white space; and there are at
    most as many terms as the string has commas, plus one. *)
Theorem categoryList_invariants (c : string) :
  Forall (fun t =>
            nonempty t = true
            /\ hasChar comma t = false
            /\ (exists a, firstChar t = Some a /\ is_ws a = false)
            /\ (exists z, lastChar t = Some z /\ is_ws z = false))
         (categoryList c)
  /\ length (categoryList c) <= S (countChar comma c).
Proof.
  split.
  - apply List.Forall_forall. intros t Ht. unfold categoryList in Ht.
    apply List.filter_In in Ht as [Ht Hn].
    apply List.in_map_iff in Ht as [seg [<- Hseg]].
    rewrite nonempty_escapeQuotes in Hn.
    split; [by rewrite nonempty_escapeQuotes|].
    split.
    { rewrite hasChar_escapeQuotes by discriminate.
      apply hasChar_trimEnd, hasChar_trimStart.
      pose proof (split_lacks_sep comma c) as Hall.
      rewrite List.Forall_forall in Hall. by apply Hall. }
    destruct (trim_ends seg Hn) as [[a [Ha Hwa]] [z [Hz Hwz]]].
    split.
    + eexists. split; [by apply firstChar_escaped|].
      destruct (Ascii.eqb a quote); [apply is_ws_backslash | done].
    + exists z. by rewrite lastChar_escapeQuotes.
  - unfold categoryList.
    etransitivity; [apply List.filter_length_le|].
    by rewrite List.length_map, length_split.
Qed.

Lemma categoryPart_no_terms (c : string) :
  categoryList c = [] -> categoryPart (JStr c) = Ok [].
Proof.
  intros H. unfold categoryPart. simpl. rewrite H. simpl.
  by destruct (nonempty c).
Qed.

Lemma listTools_same_parts (tableName : option string) (base : Base)
    (q1 q2 : gmap string jsval) :
  searchPart (get q1 "search") = searchPart (get q2 "search") ->
  categoryPart (get q1 "category") = categoryPart (get q2 "category") ->
  safeSortBy (get q1 "sortBy") = safeSortBy (get q2 "sortBy") ->
  safeSortOrder (get q1 "sortOrder") = safeSortOrder (get q2 "sortOrder") ->
  listTools tableName base q1 = listTools tableName base q2.
Proof.
  intros Hs Hc Hb Ho. unfold listTools, formulaParts, selectOf.
  by rewrite Hs, Hc, Hb, Ho.
Qed.

(** X9: a query parameter that is the empty string is the same as no
    parameter, whatever its name; and a [category] made of commas and white
    space only is the same as no [category]: same store call, same reply. *)
Theorem listTools_blank_parameters (tableName : option string) (base : Base)
    (query : gmap string jsval) :
  (forall k, listTools tableName base (<[k := JStr ""]> query)
             = listTools tableName base (delete k query))
  /\ (forall c, allChars is_ws_or_comma c = true ->
        listTools tableName base (<["category" := JStr c]> query)
        = listTools tableName base (delete "category" query)).
Proof.
  split.
  - intros k. apply listTools_same_parts;
      rewrite get_insert, get_delete; by case_decide.
  - intros c Hc. apply categoryList_nil_iff in Hc.
    apply listTools_same_parts;
      rewrite get_insert, get_delete; try done.
    rewrite !decide_True by done. by apply categoryPart_no_terms.
Qed.

Lemma listTools_blank_parameters_witness :
  listTools (Some "Tools") memBase
    (<["category" := JStr " , ,"]> {[ "search" := JStr "moon" ]})
  = listTools (Some "Tools") memBase
      (delete "category" {[ "search" := JStr "moon" ]}).
Proof.
  apply (proj2 (listTools_blank_parameters (Some "Tools") memBase
                  {[ "search" := JStr "moon" ]})).
  reflexivity.
Defined.

Lemma splitTrimDrop_lacks (x : ascii) (c : string) :
  hasChar x c = false ->
  Forall (fun t => hasChar x t = false) (splitTrimDrop c).
Proof.
  intros H. unfold splitTrimDrop.
  apply List.Forall_forall. intros t [Ht _]%List.filter_In.
  apply List.in_map_iff in Ht as [seg [<- Hseg]].
  pose proof (hasChar_split x comma c H) as Hall.
  rewrite List.Forall_forall in Hall.
  by apply hasChar_trimEnd, hasChar_trimStart, Hall.
Qed.

(** X10: when neither the search text nor the category string contains a
    backslash, every term the route places between quotes is a closed
    literal body: each quote in it is escaped and no backslash is left
    to take the closing quote. *)
Theorem literals_closed_without_backslash (search category : string) :
  hasChar backslash search = false ->
  hasChar backslash category = false ->
  literalBody (searchTermOf search) = true
  /\ Forall (fun t => literalBody t = true) (categoryList category).
Proof.
  intros Hs Hc. split; [by apply literalBody_searchTerm|].
  rewrite categoryList_escaped. apply List.Forall_forall.
  intros t [u [<- Hu]]%List.in_map_iff.
  apply literalBody_escapeQuotes.
  pose proof (splitTrimDrop_lacks backslash category Hc) as Hall.
  rewrite List.Forall_forall in Hall. by apply Hall.
Qed.

Lemma literals_closed_without_backslash_witness :
  literalBody (searchTermOf "Bob's 'Lab'") = true
  /\ Forall (fun t => literalBody t = true) (categoryList "O'Brien, VR").
Proof.
  apply literals_closed_without_backslash; reflexivity.
Defined.

Lemma escapeQuotes_head_not_quote (s : string) :
  firstChar (escapeQuotes s) <> Some quote.
Proof.
  destruct s as [|c r]; simpl; [done|].
  destruct (Ascii.eqb c quote) eqn:E; simpl; [done|].
  intros [= ->]. by rewrite Ascii.eqb_refl in E.
Qed.

(** X11: escaping is injective: two different terms are never written as
    the same literal. *)
Theorem escapeQuotes_inj (s1 s2 : string) :
  escapeQuotes s1 = escapeQuotes s2 <-> s1 = s2.
Proof.
  split; [|by intros ->].
  revert s2. induction s1 as [|c1 r1 IH]; intros [|c2 r2]; simpl.
  - done.
  - destruct (Ascii.eqb c2 quote); discriminate.
  - destruct (Ascii.eqb c1 quote); discriminate.
  - destruct (Ascii.eqb c1 quote) eqn:E1, (Ascii.eqb c2 quote) eqn:E2.
    + apply Ascii.eqb_eq in E1 as ->. apply Ascii.eqb_eq in E2 as ->.
      intros [= H]. by rewrite (IH _ H).
    + intros [= <- H]. exfalso.
      apply (escapeQuotes_head_not_quote r2). by rewrite <- H.
    + intros [= -> H]. exfalso.
      apply (escapeQuotes_head_not_quote r1). by rewrite H.
    + intros [= -> H]. by rewrite (IH _ H).
Qed.

(* ===================================================================== *)
(** ** Further properties of the error handler and of POST /submit *)
(* ===================================================================== *)




Lemma nonempty_of_trim (s : string) :
  nonempty (trim s) = true -> nonempty s = true.
Proof. destruct s; [done | done]. Qed.

Lemma get_newToolData (receivedData : gmap string jsval) :
  get (newToolData receivedData) "title" = get receivedData "Tool Name"
  /\ get (newToolData receivedData) "link" = get receivedData "URL"
  /\ get (newToolData receivedData) "description"
     = get receivedData "Description"
  /\ get (newToolData receivedData) "tags" = get receivedData "Category"
  /\ get (newToolData receivedData) "thumbnail"
     = (if truthy (get receivedData "Image URL")
        then get receivedData "Image URL" else JUndefined)
  /\ get (newToolData receivedData) "rating" = JUndefined
  /\ get (newToolData receivedData) "author" = JUndefined.
Proof.
  unfold newToolData, get at 1 3 5 7 9 12 13.
  destruct (truthy (get receivedData "Image URL")); by simplify_map_eq.
Qed.

(** X13: a submission that passes validation round-trips through a store
    that hands back the fields it was given: the reply is 201 and the
    returned record has the submitted Tool Name, URL, Description and
    Category as name, url, description and category, character for
    character (nothing is trimmed), the Image URL as imageUrl or null when
    none was given, and no rating or author. *)
Theorem submitTool_round_trip (tableName : option string)
    (URL_ok : string -> bool) (base : Base)
    (receivedData : gmap string jsval) (r : record) (rest : list record) :
  configured tableName = true ->
  validate URL_ok receivedData = Ok ∅ ->
  create base [newToolData receivedData] = inr (r :: rest) ->
  rec_fields r = newToolData receivedData ->
  exists t,
    reply (snd (submitTool tableName URL_ok base receivedData))
    = Some (201%Z, BTool t)
    /\ Tool.id t = JStr (rec_id r)
    /\ Tool.name t = get receivedData "Tool Name"
    /\ Tool.url t = get receivedData "URL"
    /\ Tool.description t = get receivedData "Description"
    /\ Tool.category t = get receivedData "Category"
    /\ Tool.imageUrl t = js_or (get receivedData "Image URL") JNull
    /\ Tool.rating t = JNull
    /\ Tool.author t = JNull.
Proof.
  intros Hc Hv Hs Hr.
  rewrite (submitTool_valid _ _ _ _ Hc Hv). simpl. rewrite Hs. simpl.
  exists (formatRecord r). split; [done|].
  destruct (validate_passes _ _ Hv) as [Hreq _].
  destruct (get_newToolData receivedData)
    as (Ht & Hl & Hd & Hg & Hth & Hra & Hau).
  assert (Hkeep : forall k dflt, k ∈ required ->
            js_or (get receivedData k) dflt = get receivedData k).
  { intros k dflt Hk. destruct (Hreq k Hk) as [s [-> Hn]].
    apply js_or_truthy. simpl. by apply nonempty_of_trim. }
  unfold formatRecord. rewrite Hr, Ht, Hl, Hd, Hg, Hth, Hra, Hau. simpl.
  rewrite !Hkeep by (unfold required; set_solver).
  repeat split; try done.
  unfold js_or. destruct (truthy (get receivedData "Image URL")) eqn:E;
    [by rewrite E | done].
Qed.

Lemma submitTool_round_trip_witness :
  exists t,
    reply (snd (submitTool (Some "Tools") URL_scheme memBase sampleSubmission))
    = Some (201%Z, BTool t)
    /\ Tool.name t = JStr "Orbit Lab"
    /\ Tool.url t = JStr "https://example.org/orbit".
Proof.
  destruct (submitTool_round_trip (Some "Tools") URL_scheme memBase
              sampleSubmission (mkRecord "rec2" (newToolData sampleSubmission))
              [])
    as (t & Hr & _ & Hn & Hu & _);
    [reflexivity | vm_compute; reflexivity | reflexivity | reflexivity |].
  exists t. split; [exact Hr|]. split; [exact Hn | exact Hu].
Defined.

(** X14: body keys other than Tool Name, URL, Description, Category and
    Image URL (the form also sends Pricing) have no effect on the submit
    handler: they are neither validated nor stored, and the store call and
    the reply are the same with and without them. *)
Theorem submitTool_ignores_other_keys (tableName : option string)
    (URL_ok : string -> bool) (base : Base)
    (receivedData : gmap string jsval) (k : string) (v : jsval) :
  k ∉ submissionKeys ->
  validate URL_ok (<[k := v]> receivedData) = validate URL_ok receivedData
  /\ newToolData (<[k := v]> receivedData) = newToolData receivedData
  /\ submitTool tableName URL_ok base (<[k := v]> receivedData)
     = submitTool tableName URL_ok base receivedData.
Proof.
  intros Hk. unfold submissionKeys in Hk.
  assert (Hget : forall k', k' ∈ submissionKeys ->
            get (<[k := v]> receivedData) k' = get receivedData k').
  { intros k' Hk'. rewrite get_insert. case_decide; [|done].
    subst. by destruct Hk. }
  assert (Hv : validate URL_ok (<[k := v]> receivedData)
               = validate URL_ok receivedData).
  { unfold validate.
    rewrite !Hget by (unfold submissionKeys; set_solver). done. }
  assert (Hn : newToolData (<[k := v]> receivedData)
               = newToolData receivedData).
  { unfold newToolData.
    rewrite !Hget by (unfold submissionKeys; set_solver). done. }
  split; [done|]. split; [done|].
  unfold submitTool. by rewrite Hv, Hn.
Qed.

Lemma submitTool_ignores_other_keys_witness :
  submitTool (Some "Tools") URL_scheme memBase
    (<["Pricing" := JStr "Free"]> sampleSubmission)
  = submitTool (Some "Tools") URL_scheme memBase sampleSubmission.
Proof.
  apply (submitTool_ignores_other_keys (Some "Tools") URL_scheme memBase
           sampleSubmission "Pricing" (JStr "Free")).
  unfold submissionKeys. intros H.
  repeat (apply elem_of_cons in H as [H|H]; [discriminate|]).
  by apply elem_of_nil in H.
Defined.

(** X15: every submission that fails validation gets the same reply: status
    400 and the message 'Validation failed', with a stack in development
    mode only.  The map of field messages stays on the error object; the
    reply body does not depend on which fields failed. *)
Theorem submitTool_invalid_reply (tableName : option string)
    (URL_ok : string -> bool) (base : Base)
    (receivedData : gmap string jsval) (errors : gmap string string)
    (NODE_ENV : option string) (stack : js_error -> string) :
  configured tableName = true ->
  validate URL_ok receivedData = Ok errors ->
  errors <> ∅ ->
  exists e r,
    submitTool tableName URL_ok base receivedData = ([], Next e)
    /\ generalErrorHandler NODE_ENV stack e = Answered r
    /\ er_status r = 400%Z
    /\ er_message r = "Validation failed"
    /\ reply (Next e) = Some (400%Z, BMessage "Validation failed").
Proof.
  intros Hc Hv Hne. eexists _, _.
  split; [by apply submitTool_invalid|].
  split; [reflexivity|]. done.
Qed.

Lemma submitTool_invalid_reply_witness :
  reply (snd (submitTool (Some "Tools") URL_scheme memBase blankSubmission))
  = reply (snd (submitTool (Some "Tools") URL_scheme memBase
                  malformedSubmission)).
Proof.
  destruct (submitTool_invalid_reply (Some "Tools") URL_scheme memBase
              blankSubmission
              (<["Category" := "Category is required"]>
                 (<["Description" := "Description is required"]> ∅))
              None (fun _ => ""))
    as (e1 & r1 & H1 & _ & _ & _ & R1);
    [reflexivity | vm_compute; reflexivity | apply insert_non_empty |].
  destruct (submitTool_invalid_reply (Some "Tools") URL_scheme memBase
              malformedSubmission
              (<["Description" := "Description is required"]>
                 (<["URL" := "Invalid URL format"]>
                    (<["Tool Name" := "Tool Name is required"]> ∅)))
              None (fun _ => ""))
    as (e2 & r2 & H2 & _ & _ & _ & R2);
    [reflexivity | vm_compute; reflexivity | apply insert_non_empty |].
  rewrite H1, H2. cbn [snd]. by rewrite R1, R2.
Defined.

(** X16: for a submission whose required fields are strings or absent, the
    error map holds one fixed message per flagged key: '... is required'
    for a missing or blank field, and for URL 'Invalid URL format' when it
    is not blank but does not parse; no other key is present. *)
Theorem validate_messages (URL_ok : string -> bool)
    (receivedData : gmap string jsval) :
  (forall k, k ∈ required -> textual (get receivedData k) = true) ->
  exists errors,
    validate URL_ok receivedData = Ok errors
    /\ errors !! "Tool Name"
       = (if blankField (get receivedData "Tool Name")
          then Some "Tool Name is required" else None)
    /\ errors !! "URL"
       = (if blankField (get receivedData "URL")
          then Some "Tool URL is required"
          else if malformedURL URL_ok (get receivedData "URL")
               then Some "Invalid URL format" else None)
    /\ errors !! "Description"
       = (if blankField (get receivedData "Description")
          then Some "Description is required" else None)
    /\ errors !! "Category"
       = (if blankField (get receivedData "Category")
          then Some "Category is required" else None)
    /\ (forall k, k ∉ required -> errors !! k = None).
Proof.
  intros Ht.
  assert (Hn : textual (get receivedData "Tool Name") = true)
    by (apply Ht; unfold required; set_solver).
  assert (Hu : textual (get receivedData "URL") = true)
    by (apply Ht; unfold required; set_solver).
  assert (Hd : textual (get receivedData "Description") = true)
    by (apply Ht; unfold required; set_solver).
  assert (Hc : textual (get receivedData "Category") = true)
    by (apply Ht; unfold required; set_solver).
  unfold validate.
  rewrite (isBlank_textual _ Hn), (isBlank_textual _ Hu),
    (isBlank_textual _ Hd), (isBlank_textual _ Hc). simpl.
  eexists. split; [reflexivity|].
  assert (Hurl : forall errors : gmap string string,
    (if blankField (get receivedData "URL")
     then <["URL" := "Tool URL is required"]> errors
     else match get receivedData "URL" with
          | JStr s => if URL_ok s then errors
                      else <["URL" := "Invalid URL format"]> errors
          | _ => errors
          end)
    = (if blankField (get receivedData "URL")
       then <["URL" := "Tool URL is required"]> errors
       else if malformedURL URL_ok (get receivedData "URL")
            then <["URL" := "Invalid URL format"]> errors else errors)).
  { intros errors. destruct (get receivedData "URL") as [| | | |s| |];
      try done. simpl. destruct (nonempty (trim s)); simpl; [|done].
    by destruct (URL_ok s). }
  rewrite Hurl.
  destruct (blankField (get receivedData "Tool Name")),
    (blankField (get receivedData "URL")),
    (malformedURL URL_ok (get receivedData "URL")),
    (blankField (get receivedData "Description")),
    (blankField (get receivedData "Category"));
    split_and!; try (by simplify_map_eq);
    intros k Hk; unfold required in Hk;
    repeat (rewrite lookup_insert_ne by (intros <-; apply Hk; set_solver));
    apply lookup_empty.
Qed.

Lemma validate_messages_witness :
  exists errors,
    validate URL_scheme malformedSubmission = Ok errors
    /\ errors !! "URL" = Some "Invalid URL format"
    /\ errors !! "Category" = None.
Proof.
  destruct (validate_messages URL_scheme malformedSubmission)
    as (errors & Hv & _ & Hu & _ & Hc & _).
  - intros k Hk. unfold required in Hk.
    repeat (apply elem_of_cons in Hk as [->|Hk]); try reflexivity.
    by apply elem_of_nil in Hk.
  - exists errors. split; [exact Hv|]. split; [exact Hu | exact Hc].
Defined.

(* ===================================================================== *)
(** ** SubmitPage: the form against the backend *)
(* ===================================================================== *)

Lemma get_apiPayload (formData : SubmitPage.FormData) :
  get (SubmitPage.apiPayload formData) "Tool Name"
  = JStr (SubmitPage.toolName formData)
  /\ get (SubmitPage.apiPayload formData) "URL"
     = JStr (SubmitPage.url formData)
  /\ get (SubmitPage.apiPayload formData) "Description"
     = JStr (SubmitPage.description formData)
  /\ get (SubmitPage.apiPayload formData) "Category"
     = JStr (SubmitPage.category formData)
  /\ get (SubmitPage.apiPayload formData) "Image URL"
     = (if nonempty (SubmitPage.imageUrl formData)
        then JStr (SubmitPage.imageUrl formData) else JUndefined).
Proof.
  unfold SubmitPage.apiPayload, get.
  destruct (nonempty (SubmitPage.imageUrl formData)); by simplify_map_eq.
Qed.

(** A form that passes [validateForm] has a non-blank name, URL and
    description, a URL the constructor accepts, and a category and pricing
    that are not empty. *)
Lemma validateForm_passes (URL_ok : string -> bool)
    (formData : SubmitPage.FormData) :
  size (SubmitPage.validateForm URL_ok formData) = 0 ->
  nonempty (trim (SubmitPage.toolName formData)) = true
  /\ nonempty (trim (SubmitPage.url formData)) = true
  /\ URL_ok (SubmitPage.url formData) = true
  /\ nonempty (trim (SubmitPage.description formData)) = true
  /\ nonempty (SubmitPage.category formData) = true
  /\ nonempty (SubmitPage.pricing formData) = true.
Proof.
  unfold SubmitPage.validateForm. intros Hz.
  apply size_flagged_zero in Hz as [Hp Hz].
  apply size_flagged_zero in Hz as [Hc Hz].
  apply size_flagged_zero in Hz as [Hd Hz].
  apply negb_false_iff in Hp, Hc, Hd.
  destruct (nonempty (trim (SubmitPage.url formData))) eqn:Hu; simpl in Hz.
  2:{ apply map_size_empty_inv in Hz. by apply insert_non_empty in Hz. }
  destruct (URL_ok (SubmitPage.url formData)) eqn:Hok.
  2:{ apply map_size_empty_inv in Hz. by apply insert_non_empty in Hz. }
  apply size_flagged_zero in Hz as [Hn _].
  apply negb_false_iff in Hn. done.
Qed.

(** X17: a form that [handleSubmit] lets through, with a category that is
    not blank, passes the backend's validation too (given the same URL
    constructor on both sides), so the backend makes its one store call;
    the stored row has a thumbnail exactly when the Image URL box is not
    empty, and the Pricing the form insists on is not stored. *)
Theorem form_passes_backend (tableName : option string)
    (URL_ok : string -> bool) (base : Base)
    (formData : SubmitPage.FormData) (receivedData : gmap string jsval) :
  configured tableName = true ->
  SubmitPage.handleSubmit URL_ok formData = Some receivedData ->
  nonempty (trim (SubmitPage.category formData)) = true ->
  validate URL_ok receivedData = Ok ∅
  /\ fst (submitTool tableName URL_ok base receivedData)
     = [Create [newToolData receivedData]]
  /\ newToolData receivedData !! "thumbnail"
     = (if nonempty (SubmitPage.imageUrl formData)
        then Some (JStr (SubmitPage.imageUrl formData)) else None)
  /\ newToolData receivedData !! "Pricing" = None
  /\ newToolData receivedData !! "tags"
     = Some (JStr (SubmitPage.category formData)).
Proof.
  intros Hconf Hs Hcat. unfold SubmitPage.handleSubmit in Hs.
  destruct (size (SubmitPage.validateForm URL_ok formData) =? 0)%nat eqn:Hz;
    [|discriminate].
  injection Hs as <-. apply Nat.eqb_eq in Hz.
  destruct (validateForm_passes _ _ Hz) as (Hn & Hu & Hok & Hd & _ & _).
  destruct (get_apiPayload formData) as (Gn & Gu & Gd & Gc & Gi).
  assert (Hv : validate URL_ok (SubmitPage.apiPayload formData) = Ok ∅).
  { unfold validate, isBlank. rewrite Gn, Gu, Gd, Gc. simpl.
    by rewrite Hn, Hu, Hd, Hcat, Hok. }
  split; [done|].
  split; [by rewrite (submitTool_valid _ _ _ _ Hconf Hv)|].
  destruct (lookup_newToolData (SubmitPage.apiPayload formData))
    as (_ & _ & _ & Lg & Lt).
  split.
  { rewrite Lt, Gi.
    destruct (nonempty (SubmitPage.imageUrl formData)) eqn:E; simpl;
      [by rewrite E | done]. }
  split; [|by rewrite Lg, Gc].
  apply not_elem_of_dom. rewrite dom_newToolData.
  unfold flag. destruct (truthy _); set_solver.
Qed.

Lemma form_passes_backend_witness :
  validate URL_scheme (SubmitPage.apiPayload sampleForm) = Ok ∅
  /\ newToolData (SubmitPage.apiPayload sampleForm) !! "thumbnail" = None.
Proof.
  destruct (form_passes_backend (Some "Tools") URL_scheme memBase sampleForm
              (SubmitPage.apiPayload sampleForm))
    as (Hv & _ & Ht & _); [reflexivity | reflexivity | reflexivity |].
  split; [exact Hv | exact Ht].
Defined.

(* ===================================================================== *)
(** ** HomePage: checkboxes, sort selector and the category parameter *)
(* ===================================================================== *)

Lemma assign_keys_present (n : string) (c : bool) (sel : list (string * bool)) :
  In n (List.map fst sel) ->
  List.map fst (assign n c sel) = List.map fst sel.
Proof.
  induction sel as [|[k b] rest IH]; simpl; [done|].
  destruct (String.eqb k n) eqn:E; [done|].
  intros [->|H]; [by rewrite String.eqb_refl in E|].
  simpl. by rewrite IH.
Qed.

Lemma assign_keys_fresh (n : string) (c : bool) (sel : list (string * bool)) :
  ~ In n (List.map fst sel) ->
  List.map fst (assign n c sel) = List.map fst sel ++ [n].
Proof.
  induction sel as [|[k b] rest IH]; simpl; [done|].
  intros H. destruct (String.eqb k n) eqn:E.
  - apply String.eqb_eq in E. tauto.
  - simpl. rewrite IH; [done | tauto].
Qed.

Lemma NoDup_snoc {A : Type} (l : list A) (x : A) :
  List.NoDup l -> ~ In x l -> List.NoDup (l ++ [x]).
Proof.
  induction l as [|a l IH]; simpl; intros Hnd Hx.
  - constructor; [by intros [] | constructor].
  - apply List.NoDup_cons_iff in Hnd as [Ha Hnd].
    constructor; [|apply IH; tauto].
    rewrite List.in_app_iff. simpl. intros [H|[H|[]]]; [done|].
    subst. tauto.
Qed.

Lemma assign_NoDup (n : string) (c : bool) (sel : list (string * bool)) :
  List.NoDup (List.map fst sel) ->
  List.NoDup (List.map fst (assign n c sel)).
Proof.
  intros H. destruct (List.in_dec string_dec n (List.map fst sel)) as [Hi|Hi].
  - by rewrite assign_keys_present.
  - rewrite assign_keys_fresh by done. by apply NoDup_snoc.
Qed.

Lemma selectionAfter_NoDup (changes : list (string * bool)) :
  List.NoDup (List.map fst (selectionAfter changes)).
Proof.
  unfold selectionAfter.
  assert (H : forall sel, List.NoDup (List.map fst sel) ->
            List.NoDup (List.map fst
              (fold_left (fun sel ch => assign (fst ch) (snd ch) sel)
                 changes sel))).
  { induction changes as [|ch changes IH]; intros sel Hs; simpl; [done|].
    apply IH. by apply assign_NoDup. }
  apply H. constructor.
Qed.

Lemma In_activeCategories (k : string) (sel : list (string * bool)) :
  In k (activeCategories sel) <-> In (k, true) sel.
Proof.
  unfold activeCategories. rewrite List.in_map_iff. split.
  - intros [[k' b] [<- H]]. apply List.filter_In in H as [H Hb].
    simpl in *. by subst.
  - intros H. exists (k, true). split; [done|].
    apply List.filter_In. by split.
Qed.

Lemma In_assign (n : string) (c : bool) (sel : list (string * bool))
    (k : string) :
  List.NoDup (List.map fst sel) ->
  In (k, true) (assign n c sel)
  <-> (k = n /\ c = true) \/ (k <> n /\ In (k, true) sel).
Proof.
  induction sel as [|[k0 b] rest IH]; simpl.
  - intros _. split.
    + intros [[= -> ->]|[]]. by left.
    + intros [[-> ->]|[_ []]]. by left.
  - intros Hnd. apply List.NoDup_cons_iff in Hnd as [Hk0 Hnd].
    destruct (String.eqb k0 n) eqn:E.
    + apply String.eqb_eq in E as ->. simpl. split.
      * intros [[= -> ->]|H]; [by left|]. right. split; [|by right].
        intros ->. apply Hk0. apply List.in_map_iff. by exists (n, true).
      * intros [[-> ->]|[Hne [[= ? ?]|H]]]; [by left | congruence | by right].
    + apply String.eqb_neq in E. simpl. rewrite (IH Hnd). split.
      * intros [[= -> ->]|[H|[Hne H]]]; [right; split; [congruence | by left]
                                         | by left | right; split; [done | by right]].
      * intros [H|[Hne [[= -> ->]|H]]]; [right; by left | by left
                                          | right; right; by split].
Qed.

(** X18: in every checkbox state reached from the empty one, each name
    occurs once; after a change of box [n] to [c] the selected names are
    [n] (if [c] is true) together with the other names that were selected
    before; and a name that was ticked before keeps its place in the
    order, while a new name goes last. *)
Theorem checkbox_selection (changes : list (string * bool)) (n : string)
    (c : bool) :
  List.NoDup (List.map fst (selectionAfter changes))
  /\ (forall k,
        In k (activeCategories (assign n c (selectionAfter changes)))
        <-> (k = n /\ c = true)
            \/ (k <> n /\ In k (activeCategories (selectionAfter changes))))
  /\ (In n (List.map fst (selectionAfter changes)) ->
      List.map fst (assign n c (selectionAfter changes))
      = List.map fst (selectionAfter changes))
  /\ (~ In n (List.map fst (selectionAfter changes)) ->
      List.map fst (assign n c (selectionAfter changes))
      = List.map fst (selectionAfter changes) ++ [n]).
Proof.
  pose proof (selectionAfter_NoDup changes) as Hnd.
  split; [done|]. split.
  - intros k. rewrite !In_activeCategories. by apply In_assign.
  - split; [apply assign_keys_present | apply assign_keys_fresh].
Qed.

(** Two boxes on, then the first one off: the second remains. *)
Lemma checkbox_selection_witness :
  List.map fst (assign "VR" true (selectionAfter [("VR", true); ("Arts", true);
                                                  ("VR", false)]))
  = ["VR"; "Arts"].
Proof.
  destruct (checkbox_selection [("VR", true); ("Arts", true); ("VR", false)]
              "VR" true) as (_ & _ & Hkeep & _).
  rewrite Hkeep; [reflexivity|]. simpl. by left.
Defined.



Lemma split_plain (sep : ascii) (a : string) :
  hasChar sep a = false -> split sep a = [a].
Proof.
  induction a as [|c r IH]; simpl; [done|].
  intros [Hc Hr]%orb_false_iff. rewrite Hc, (IH Hr). done.
Qed.

Lemma split_append_sep (sep : ascii) (a rest : string) :
  hasChar sep a = false ->
  split sep (a +:+ String sep rest) = a :: split sep rest.
Proof.
  induction a as [|c r IH]; intros H.
  - rewrite append_nil_l. simpl. by rewrite Ascii.eqb_refl.
  - simpl in H. apply orb_false_iff in H as [Hc Hr].
    rewrite append_cons. simpl. rewrite Hc, (IH Hr). done.
Qed.

Lemma split_join (l : list string) :
  l <> [] ->
  Forall (fun n => hasChar comma n = false) l ->
  split comma (join "," l) = l.
Proof.
  induction l as [|x [|y l'] IH]; intros Hne Hall; [done | |].
  - simpl. apply split_plain. by inversion Hall.
  - inversion Hall as [|? ? Hx Hrest]; subst.
    change (join "," (x :: y :: l'))
      with (x +:+ "," +:+ join "," (y :: l')).
    change ("," +:+ join "," (y :: l'))
      with (String comma (join "," (y :: l'))).
    rewrite (split_append_sep _ _ _ Hx), IH; done.
Qed.

Lemma trimEnd_id (s : string) (z : ascii) :
  lastChar s = Some z -> is_ws z = false -> trimEnd s = s.
Proof.
  induction s as [|c [|c' r] IH]; [done | |].
  - simpl. intros [= ->] ->. done.
  - intros Hl Hz. change (lastChar (String c (String c' r)))
      with (lastChar (String c' r)) in Hl.
    change (trimEnd (String c (String c' r)))
      with (match trimEnd (String c' r) with
            | "" => if is_ws c then "" else String c ""
            | r' => String c r'
            end).
    by rewrite (IH Hl Hz).
Qed.

Lemma plainName_fixed (s : string) :
  plainName s = true ->
  escapeQuotes (trim s) = s /\ nonempty s = true /\ hasChar comma s = false.
Proof.
  unfold plainName. rewrite !andb_true_iff, !negb_true_iff.
  intros [[[[Hn Hc] Hq] Hf] Hl].
  destruct (firstChar s) as [a|] eqn:Ea; [|done].
  destruct (lastChar s) as [z|] eqn:Ez; [|done].
  apply negb_true_iff in Hf, Hl.
  assert (Ht : trim s = s).
  { unfold trim. destruct s as [|c r]; [done|].
    simpl in Ea. injection Ea as ->. simpl. rewrite Hf.
    by apply (trimEnd_id _ z). }
  rewrite Ht, escapeQuotes_id; done.
Qed.

Lemma categoryList_join (l : list string) :
  l <> [] -> Forall (fun n => plainName n = true) l ->
  categoryList (join "," l) = l.
Proof.
  intros Hne Hall. unfold categoryList.
  rewrite split_join; [|done|].
  2:{ eapply List.Forall_impl; [|exact Hall].
      intros n Hn. by apply plainName_fixed in Hn as (_ & _ & ?). }
  clear Hne. induction Hall as [|n l Hn _ IH]; simpl; [done|].
  apply plainName_fixed in Hn as (-> & -> & _). by rewrite IH.
Qed.

(** X20: the category parameter survives the trip from the checkboxes to
    the backend.  When the selected names are plain (not empty, no comma, no
    single quote, no white space at either end), the backend's term list
    for the string the page sends is exactly the list of selected names, in
    the page's order; with nothing selected no parameter is sent.  All
    sixteen checkbox names are plain. *)
Theorem category_round_trip (sel : list (string * bool)) :
  Forall (fun n => plainName n = true) (activeCategories sel) ->
  (forall c, categoryParam sel = Some c ->
     categoryList c = activeCategories sel
     /\ categoryPart (JStr c) = Ok [categoryClause (activeCategories sel)])
  /\ (categoryParam sel = None <-> activeCategories sel = [])
  /\ forallb plainName CHECKBOX_CATEGORIES = true.
Proof.
  intros Hall. unfold categoryParam.
  destruct (activeCategories sel) as [|n l] eqn:E.
  - split; [discriminate|]. split; [done | by vm_compute].
  - split; [|split; [split; discriminate | by vm_compute]].
    change (0 <? length (n :: l))%nat with true.
    intros c Hc. assert (c = join "," (n :: l)) as -> by congruence.
    clear Hc.
    assert (Hl : categoryList (join "," (n :: l)) = n :: l)
      by (by apply categoryList_join).
    split; [done|].
    assert (Hn : nonempty (join "," (n :: l)) = true).
    { inversion Hall as [|? ? Hp _]; subst.
      apply plainName_fixed in Hp as (_ & Hp & _).
      destruct n; [done|]. by destruct l. }
    unfold categoryPart, truthy. rewrite Hn, Hl. done.
Qed.

Lemma category_round_trip_witness :
  categoryList "360 Video,Health / Medicine"
  = ["360 Video"; "Health / Medicine"].
Proof.
  destruct (category_round_trip
              [("360 Video", true); ("Arts", false);
               ("Health / Medicine", true)]) as [H _].
  - repeat constructor.
  - apply (H "360 Video,Health / Medicine"). reflexivity.
Defined.

Lemma nonempty_orElse (x dflt : string) :
  nonempty dflt = true -> nonempty (orElse x dflt) = true.
Proof. unfold orElse. by destruct (nonempty x) eqn:E. Qed.

(** X21: the sort token decodes to a field and an order that are never
    empty; a token field-order without further dashes decodes to exactly
    that pair, and a token without a dash is taken whole as the field, with
    ascending order; and for each of the four options of the selector the
    backend uses the decoded field and order as given. *)
Theorem sortPair_decodes :
  (forall f o, nonempty f = true -> nonempty o = true ->
     hasChar dash f = false -> hasChar dash o = false ->
     sortPair (f +:+ "-" +:+ o) = (f, o))
  /\ (forall v, hasChar dash v = false ->
        sortPair v = (orElse v "title", "asc"))
  /\ (forall v, nonempty (fst (sortPair v)) = true
                /\ nonempty (snd (sortPair v)) = true)
  /\ Forall (fun v =>
               safeSortBy (JStr (fst (sortPair v)))
               = JStr (fst (sortPair v))
               /\ safeSortOrder (JStr (snd (sortPair v)))
                  = snd (sortPair v))
            SORT_OPTIONS.
Proof.
  split; [|split; [|split]].
  - intros f o Hf Ho Hdf Hdo. unfold sortPair.
    change ("-" +:+ o) with (String dash o).
    rewrite (split_append_sep _ _ _ Hdf), (split_plain _ _ Hdo). simpl.
    unfold orElse. by rewrite Hf, Ho.
  - intros v Hd. unfold sortPair. by rewrite (split_plain _ _ Hd).
  - intros v. unfold sortPair. simpl. split; by apply nonempty_orElse.
  - repeat constructor.
Qed.

Lemma sortPair_decodes_witness :
  sortPair "rating-desc" = ("rating", "desc")
  /\ sortPair "rating" = ("rating", "asc").
Proof.
  destruct sortPair_decodes as (Hpair & Hplain & _).
  split.
  - apply (Hpair "rating" "desc"); reflexivity.
  - apply (Hplain "rating"). reflexivity.
Defined.

Lemma pair_eqb_eq (a b : string * string) : pair_eqb a b = true <-> a = b.
Proof.
  destruct a as [a1 a2], b as [b1 b2]. unfold pair_eqb. simpl.
  rewrite andb_true_iff, !String.eqb_eq. split; [intros [-> ->]|intros [= -> ->]]; done.
Qed.

(** X22: choosing a sort token issues a fetch exactly when the decoded
    field or order changes: none when the pair stays the same, otherwise
    one, with the new field and order and the current search term and
    categories; a pending keystroke stays pending. *)
Theorem sort_change_fetches (s : state) (v : string) :
  (sortPair v = sortPair (sortValue s) ->
   fetched (step s (SelectSort v)) = fetched s)
  /\ (sortPair v <> sortPair (sortValue s) ->
      exists p,
        fetched (step s (SelectSort v)) = fetched s ++ [p]
        /\ (sortBy p, sortOrder p) = sortPair v
        /\ search p = search (fetchParams s)
        /\ category p = category (fetchParams s))
  /\ sortValue (step s (SelectSort v)) = v
  /\ pending (step s (SelectSort v)) = pending s.
Proof.
  simpl. unfold handleSortChange.
  destruct (pair_eqb (sortPair v) (sortPair (sortValue s))) eqn:E.
  - apply pair_eqb_eq in E. split; [done|]. split; [done|]. done.
  - assert (Hne : sortPair v <> sortPair (sortValue s)).
    { intros H. apply pair_eqb_eq in H. congruence. }
    split; [done|]. split; [|done].
    intros _. eexists. split; [reflexivity|].
    split; [|done].
    change (sortBy (fetchParams ?x), sortOrder (fetchParams ?x))
      with (fst (sortPair v), snd (sortPair v)).
    by destruct (sortPair v).
Qed.

Lemma sort_change_fetches_witness :
  fetched (step mounted (SelectSort "title")) = fetched mounted
  /\ exists p,
       fetched (step mounted (SelectSort "rating-desc"))
       = fetched mounted ++ [p]
       /\ (sortBy p, sortOrder p) = ("rating", "desc").
Proof.
  split.
  - apply (proj1 (sort_change_fetches mounted "title")). reflexivity.
  - destruct (proj1 (proj2 (sort_change_fetches mounted "rating-desc")))
      as (p & Hf & Hp & _); [discriminate|].
    exists p. split; [exact Hf | exact Hp].
Defined.

(* ===================================================================== *)
(** ** ToolCard and ToolDetailPage: what is shown for a stored record *)
(* ===================================================================== *)

(** X23: for every stored record the card and the detail page start from
    an image source that is never empty: the record's thumbnail when it
    holds one, otherwise the component's placeholder; and after a load
    error each shows its placeholder. *)
Theorem image_never_empty (r : record) :
  truthy (ToolCard.initialImage (formatRecord r)) = true
  /\ truthy (ToolDetailPage.fetchedImage (formatRecord r)) = true
  /\ (truthy (get (rec_fields r) "thumbnail") = true ->
      ToolCard.initialImage (formatRecord r) = get (rec_fields r) "thumbnail"
      /\ ToolDetailPage.fetchedImage (formatRecord r)
         = get (rec_fields r) "thumbnail")
  /\ (truthy (get (rec_fields r) "thumbnail") = false ->
      ToolCard.initialImage (formatRecord r)
      = JStr ToolCard.PLACEHOLDER_IMAGE
      /\ ToolDetailPage.fetchedImage (formatRecord r)
         = JStr ToolDetailPage.PLACEHOLDER_IMAGE)
  /\ (forall cur,
        ToolCard.handleImageError cur = JStr ToolCard.PLACEHOLDER_IMAGE
        /\ ToolDetailPage.handleImageError cur
           = JStr ToolDetailPage.PLACEHOLDER_IMAGE
        /\ truthy (ToolCard.handleImageError cur) = true
        /\ truthy (ToolDetailPage.handleImageError cur) = true).
Proof.
  unfold ToolCard.initialImage, ToolDetailPage.fetchedImage, formatRecord.
  simpl. unfold js_or.
  destruct (truthy (get (rec_fields r) "thumbnail")) eqn:E; simpl; rewrite ?E.
  - repeat split; done.
  - repeat split; done.
Qed.

Lemma image_never_empty_witness :
  ToolCard.initialImage (formatRecord (mkRecord "rec1" {[ "thumbnail" := JStr "" ]}))
  = JStr "https://i.imgur.com/eaOsWHB.png".
Proof.
  destruct (image_never_empty (mkRecord "rec1" {[ "thumbnail" := JStr "" ]}))
    as (_ & _ & _ & H & _).
  apply H. reflexivity.
Defined.

(** X24: the chips of the detail page are computed from the stored tags as
    if no normalisation stood in between: an array gives one chip per
    element, any other truthy value (a string, also one with commas) gives
    a single chip with that value, and a missing or falsy value none. *)
Theorem detail_chips (r : record) :
  ToolDetailPage.displayCategories (Tool.category (formatRecord r))
  = ToolDetailPage.displayCategories (get (rec_fields r) "tags")
  /\ (forall s, get (rec_fields r) "tags" = JStr s -> nonempty s = true ->
        ToolDetailPage.displayCategories (Tool.category (formatRecord r))
        = [JStr s])
  /\ (truthy (get (rec_fields r) "tags") = false ->
      ToolDetailPage.displayCategories (Tool.category (formatRecord r)) = []).
Proof.
  unfold formatRecord; simpl. unfold js_or.
  split; [|split].
  - destruct (get (rec_fields r) "tags") as [| |b|q|s|l|l]; simpl; try done.
    + by destruct b.
    + by destruct q as [[|p|p] d].
    + by destruct s.
  - intros s -> Hs. by destruct s.
  - intros ->. done.
Qed.

Lemma detail_chips_witness :
  ToolDetailPage.displayCategories
    (Tool.category (formatRecord (mkRecord "rec1" {[ "tags" := JStr "VR, History" ]})))
  = [JStr "VR, History"].
Proof.
  destruct (detail_chips (mkRecord "rec1" {[ "tags" := JStr "VR, History" ]}))
    as (_ & H & _).
  apply (H "VR, History"); reflexivity.
Defined.

(** X25: no request of the home page carries an empty parameter: [search]
    is sent exactly when the settled search term is not empty, then with
    that term; [category] is never the empty string; and the sort field and
    order are always present. *)
Theorem fetchParams_never_empty (s : state) :
  search (fetchParams s) <> Some ""
  /\ category (fetchParams s) <> Some ""
  /\ (search (fetchParams s) = None <-> searchTerm s = "")
  /\ (forall t, search (fetchParams s) = Some t -> t = searchTerm s)
  /\ nonempty (sortBy (fetchParams s)) = true
  /\ nonempty (sortOrder (fetchParams s)) = true.
Proof.
  unfold fetchParams; simpl.
  assert (Hsent : forall v, sent v <> Some "").
  { intros [t|]; simpl; [|done]. destruct t; simpl; [done|]. discriminate. }
  split; [apply Hsent|]. split; [apply Hsent|].
  split; [|split].
  - destruct (searchTerm s); simpl; split; done.
  - intros t. destruct (searchTerm s); simpl; [done|]. by intros [= <-].
  - unfold sortPair. simpl. split; by apply nonempty_orElse.
Qed.
